(** * Order service of the pizza shop: a shallow embedding and its properties

    Source: [app/api/v1/endpoints/order/crud.py] (the operations) and
    [app/api/v1/endpoints/pizza_type/schemas.py] (the pizza type attribute
    bundle).  The relational store is a record of tables, every table a list
    of rows; an operation is a computation over the SQLAlchemy session, the
    committed database and the log, which either returns a value or raises. *)

From Stdlib Require Import ZArith NArith QArith List Bool String Permutation Lia.
From Stdlib Require Import Floats.PrimFloat.
From Stdlib Require Uint63.
Import ListNotations.

Set Implicit Arguments.

(** ** Numbers

    Prices are numbers of the host language ([price: float] in the schemas;
    the column type lives in [app/database/models.py]).  The operations only
    add and multiply prices and convert the integers [0] and [quantity], so
    the arithmetic is an interface with two instances below: exact rationals
    and binary64 floats. *)

Class Number (num : Type) : Type := {
  of_int : Z -> num;
  nadd : num -> num -> num;
  nmul : num -> num -> num
}.

(** Addition that may be regrouped and reordered: what makes "the sum over
    the rows" independent of the order in which a query yields them. *)
Class ExactNumber (num : Type) `{Number num} : Prop := {
  nadd_comm : forall x y : num, nadd x y = nadd y x;
  nadd_assoc : forall x y z : num, nadd x (nadd y z) = nadd (nadd x y) z
}.

#[export] Instance Number_Q : Number Q := {
  of_int := inject_Z;
  nadd := Qplus;
  nmul := Qmult
}.

(** [float(z)] for an integer of magnitude below [2^63], which covers an
    integer column. *)
Definition float_of_int (z : Z) : float :=
  match z with
  | Z0 => PrimFloat.zero
  | Zpos p => PrimFloat.of_uint63 (Uint63.of_pos p)
  | Zneg p => PrimFloat.opp (PrimFloat.of_uint63 (Uint63.of_pos p))
  end.

#[export] Instance Number_float : Number float := {
  of_int := float_of_int;
  nadd := PrimFloat.add;
  nmul := PrimFloat.mul
}.

(** ** Data model *)

(** [uuid.UUID]: an identifier, as the number it encodes. *)
Definition uuid := N.

Definition uuid_eqb : uuid -> uuid -> bool := N.eqb.

(** Equality of a nullable foreign key with a value: SQL [col = ?] is not
    true on NULL. *)
Definition fk_eqb (col : option uuid) (v : uuid) : bool :=
  match col with
  | Some u => uuid_eqb u v
  | None => false
  end.

(** Modelled from the spec: [OrderStatus] of [app/database/models.py], an
    enumeration with at least the value [TRANSMITTED]; the members the
    excerpt does not enumerate are told apart by a tag.  Every member is a
    true value of the host language. *)
Inductive OrderStatus : Type :=
| TRANSMITTED
| OtherStatus (tag : positive).

Definition OrderStatus_eqb (a b : OrderStatus) : bool :=
  match a, b with
  | TRANSMITTED, TRANSMITTED => true
  | OtherStatus x, OtherStatus y => Pos.eqb x y
  | _, _ => false
  end.

(** Modelled from the spec: the embedded address data of the order creation
    schema, an attribute bundle (field name, value) whose fields the spec
    does not list. *)
Definition AddressCreateSchema := list (string * string).

(** Modelled from the spec: the tables of [app/database/models.py], with the
    columns the operations read and write. *)
Module Address.
Record t : Type := mk {
  id : uuid;
  data : AddressCreateSchema
}.
End Address.

Module Order.
Record t : Type := mk {
  id : uuid;
  user_id : uuid;
  address_id : option uuid;
  order_status : option OrderStatus
}.
End Order.

Module PizzaType.
(** [PizzaTypeSchema] and [PizzaTypeCreateSchema]: id, name, price,
    description, dough_id. *)
Record t (num : Type) : Type := mk {
  id : uuid;
  name : string;
  price : num;
  description : string;
  dough_id : uuid
}.
End PizzaType.

Module Pizza.
Record t : Type := mk {
  id : uuid;
  pizza_type_id : option uuid;
  order_id : option uuid
}.
End Pizza.

Module Beverage.
Record t (num : Type) : Type := mk {
  id : uuid;
  price : num
}.
End Beverage.

Module OrderBeverageQuantity.
Record t : Type := mk {
  order_id : option uuid;
  beverage_id : uuid;
  quantity : Z
}.
End OrderBeverageQuantity.

(** [OrderCreateSchema]: user id and embedded address. *)
Module OrderCreateSchema.
Record t : Type := mk {
  user_id : uuid;
  address : AddressCreateSchema
}.
End OrderCreateSchema.

(** [OrderBeverageQuantityCreateSchema]: beverage id and quantity. *)
Module OrderBeverageQuantityCreateSchema.
Record t : Type := mk {
  beverage_id : uuid;
  quantity : Z
}.
End OrderBeverageQuantityCreateSchema.

Record Store (num : Type) : Type := mkStore {
  addresses : list Address.t;
  orders : list Order.t;
  pizza_types : list (PizzaType.t num);
  pizzas : list Pizza.t;
  beverages : list (Beverage.t num);
  order_beverage_quantities : list OrderBeverageQuantity.t
}.

Definition empty_store {num} : Store num := mkStore [] [] [] [] [] [].

(** ** The log *)

Inductive Level : Type := INFO | ERROR.

Inductive LogArg (num : Type) : Type :=
| ArgUUID (u : uuid)
| ArgStatus (s : OrderStatus)
| ArgNumber (x : num).

Arguments ArgUUID {num} u.
Arguments ArgStatus {num} s.

(** One call [logging.info(template.format(args))] or [logging.error(...)]. *)
Record LogRecord (num : Type) : Type := mkLog {
  level : Level;
  template : string;
  args : list (LogArg num)
}.

(** ** The world an operation runs in

    [session] is the store as the session sees it (flushed changes of the
    open transaction included); [database] is what has been committed. *)
Record World (num : Type) : Type := mkWorld {
  session : Store num;
  database : Store num;
  log : list (LogRecord num)
}.

Inductive Exn : Type := AttributeError.

Inductive Outcome (A : Type) : Type :=
| Returned (a : A)
| Raised (e : Exn).

Arguments Raised {A} e.

(** A computation: from a world to an outcome and the world it leaves.  The
    world survives a raise: what was committed before stays committed. *)
Definition Py (num A : Type) : Type := World num -> Outcome A * World num.

Definition ret {num A} (a : A) : Py num A := fun w => (Returned a, w).

Definition bind {num A B} (c : Py num A) (k : A -> Py num B) : Py num B :=
  fun w =>
    match c w with
    | (Returned a, w') => k a w'
    | (Raised e, w') => (Raised e, w')
    end.

Definition raise {num A} (e : Exn) : Py num A := fun w => (Raised e, w).

Declare Scope py_scope.
Delimit Scope py_scope with py.
Notation "x <- c ;; k" := (bind c (fun x => k))
  (at level 61, c at next level, right associativity) : py_scope.
Notation "c ;; k" := (bind c (fun _ => k))
  (at level 61, right associativity) : py_scope.
Open Scope py_scope.

(** ** Session primitives *)

Section Session.
Context {num : Type}.

Definition with_addresses (s : Store num) (l : list Address.t) : Store num :=
  mkStore l (orders s) (pizza_types s) (pizzas s) (beverages s)
          (order_beverage_quantities s).

Definition with_orders (s : Store num) (l : list Order.t) : Store num :=
  mkStore (addresses s) l (pizza_types s) (pizzas s) (beverages s)
          (order_beverage_quantities s).

Definition with_pizzas (s : Store num) (l : list Pizza.t) : Store num :=
  mkStore (addresses s) (orders s) (pizza_types s) l (beverages s)
          (order_beverage_quantities s).

Definition with_order_beverage_quantities (s : Store num)
    (l : list OrderBeverageQuantity.t) : Store num :=
  mkStore (addresses s) (orders s) (pizza_types s) (pizzas s) (beverages s) l.

(** [db.query(...)]: reads the session's view of the store. *)
Definition db_query {A} (q : Store num -> A) : Py num A :=
  fun w => (Returned (q (session w)), w).

(** A change of the unit of work, flushed to the open transaction. *)
Definition db_flush (f : Store num -> Store num) : Py num unit :=
  fun w => (Returned tt, mkWorld (f (session w)) (database w) (log w)).

(** [db.commit()]. *)
Definition db_commit : Py num unit :=
  fun w => (Returned tt, mkWorld (session w) (session w) (log w)).

(** [db.refresh(entity)]: reloads the entity's attributes from its row.
    Entities are row values here, rebound at every change, so the reload
    has nothing left to do. *)
Definition db_refresh {A} (entity : A) : Py num unit := ret tt.

Definition logging_info (tpl : string) (a : list (LogArg num)) : Py num unit :=
  fun w => (Returned tt,
            mkWorld (session w) (database w) (log w ++ [mkLog INFO tpl a])).

Definition logging_error (tpl : string) (a : list (LogArg num)) : Py num unit :=
  fun w => (Returned tt,
            mkWorld (session w) (database w) (log w ++ [mkLog ERROR tpl a])).

(** Modelled from the spec: identifiers are UUIDs given to a row by the
    primary key column's default.  The draw is modelled as an identifier
    the table does not use yet. *)
Definition fresh_uuid (used : list uuid) : uuid :=
  N.succ (fold_right N.max 0%N used).

(** The constructors [Address], [Order(user_id=...)] and [Pizza()]: new
    entities; the columns the constructor is not given are unset. *)
Definition new_Address (schema : AddressCreateSchema) : Py num Address.t :=
  db_query (fun s => Address.mk (fresh_uuid (map Address.id (addresses s))) schema).

Definition new_Order (user_id : uuid) : Py num Order.t :=
  db_query (fun s => Order.mk (fresh_uuid (map Order.id (orders s))) user_id None None).

Definition new_Pizza : Py num Pizza.t :=
  db_query (fun s => Pizza.mk (fresh_uuid (map Pizza.id (pizzas s))) None None).

(** [db.add(entity)]: INSERT. *)
Definition db_add_address (e : Address.t) : Py num unit :=
  db_flush (fun s => with_addresses s (addresses s ++ [e])).

Definition db_add_order (e : Order.t) : Py num unit :=
  db_flush (fun s => with_orders s (orders s ++ [e])).

Definition db_add_pizza (e : Pizza.t) : Py num unit :=
  db_flush (fun s => with_pizzas s (pizzas s ++ [e])).

(** [order.pizzas.append(pizza)]: the pizza row gets the order's id. *)
Definition order_pizzas_append (order : Order.t) (pizza : Pizza.t)
    : Py num Pizza.t :=
  let pizza' := Pizza.mk (Pizza.id pizza) (Pizza.pizza_type_id pizza)
                         (Some (Order.id order)) in
  db_flush (fun s =>
    with_pizzas s
      (map (fun p => if uuid_eqb (Pizza.id p) (Pizza.id pizza) then pizza' else p)
           (pizzas s))) ;;
  ret pizza'.

(** [order.beverages.append(entity)] for a new entity: the row is inserted
    with the order's id. *)
Definition order_beverages_append (order : Order.t)
    (entity : OrderBeverageQuantity.t) : Py num OrderBeverageQuantity.t :=
  let entity' := OrderBeverageQuantity.mk (Some (Order.id order))
                   (OrderBeverageQuantity.beverage_id entity)
                   (OrderBeverageQuantity.quantity entity) in
  db_flush (fun s =>
    with_order_beverage_quantities s (order_beverage_quantities s ++ [entity'])) ;;
  ret entity'.

(** Modelled from the spec: [db.delete(order)]; the order's pizzas and
    beverage rows go with it (the cascade the spec assumes of the store). *)
Definition db_delete_order (e : Order.t) : Py num unit :=
  db_flush (fun s =>
    mkStore (addresses s)
      (filter (fun o => negb (uuid_eqb (Order.id o) (Order.id e))) (orders s))
      (pizza_types s)
      (filter (fun p => negb (fk_eqb (Pizza.order_id p) (Order.id e))) (pizzas s))
      (beverages s)
      (filter (fun q => negb (fk_eqb (OrderBeverageQuantity.order_id q) (Order.id e)))
              (order_beverage_quantities s))).

(** [db.delete(pizza)]: DELETE FROM pizza WHERE id = ?. *)
Definition db_delete_pizza (e : Pizza.t) : Py num unit :=
  db_flush (fun s =>
    with_pizzas s
      (filter (fun p => negb (uuid_eqb (Pizza.id p) (Pizza.id e))) (pizzas s))).

(** The composite key test of the beverage quantity queries. *)
Definition obq_key (order_id beverage_id : uuid)
    (q : OrderBeverageQuantity.t) : bool :=
  fk_eqb (OrderBeverageQuantity.order_id q) order_id
  && uuid_eqb beverage_id (OrderBeverageQuantity.beverage_id q).

Fixpoint update_first {A} (p : A -> bool) (f : A -> A) (l : list A) : list A :=
  match l with
  | [] => []
  | x :: r => if p x then f x :: r else x :: update_first p f r
  end.

(** [setattr(entity, 'quantity', v)] on an entity loaded with [first()]:
    the one row the entity stands for is written. *)
Definition setattr_quantity (order_id beverage_id : uuid)
    (entity : OrderBeverageQuantity.t) (v : Z) : Py num OrderBeverageQuantity.t :=
  let set q := OrderBeverageQuantity.mk (OrderBeverageQuantity.order_id q)
                 (OrderBeverageQuantity.beverage_id q) v in
  db_flush (fun s =>
    with_order_beverage_quantities s
      (update_first (obq_key order_id beverage_id) set
                    (order_beverage_quantities s))) ;;
  ret (set entity).

(** [pizza_type.id]: attribute access, an [AttributeError] on [None]. *)
Definition getattr_id (pizza_type : option (PizzaType.t num)) : Py num uuid :=
  match pizza_type with
  | Some pt => ret (PizzaType.id pt)
  | None => raise AttributeError
  end.

(** [FROM l JOIN r ON on]: the rows of [l], each with its matches in [r]. *)
Definition join {A B} (l : list A) (r : list B) (on : A -> B -> bool)
    : list (A * B) :=
  flat_map (fun a => map (pair a) (filter (on a) r)) l.

End Session.

(** ** The operations of [order/crud.py] *)

Section Operations.
Context {num : Type} `{Number num}.

(** Modelled from the spec: [create_address] of the sibling module
    [order/address/crud.py], which creates an Address from the embedded
    address data, persists it and hands it back. *)
Definition create_address (schema : AddressCreateSchema) : Py num Address.t :=
  entity <- new_Address schema ;;
  db_add_address entity ;;
  db_commit ;;
  ret entity.

Definition create_order (schema : OrderCreateSchema.t) : Py num Order.t :=
  address <- create_address (OrderCreateSchema.address schema) ;;
  order <- new_Order (OrderCreateSchema.user_id schema) ;;
  let order := Order.mk (Order.id order) (Order.user_id order)
                        (Some (Address.id address)) (Order.order_status order) in
  let order := Order.mk (Order.id order) (Order.user_id order)
                        (Order.address_id order) (Some TRANSMITTED) in
  db_add_order order ;;
  db_commit ;;
  logging_info "Order created with ID {}; user ID {}; status {}"
    [ArgUUID (Order.id order); ArgUUID (Order.user_id order); ArgStatus TRANSMITTED] ;;
  ret order.

Definition get_order_by_id (order_id : uuid) : Py num (option Order.t) :=
  entity <- db_query (fun s =>
              find (fun o => uuid_eqb (Order.id o) order_id) (orders s)) ;;
  match entity with
  | None => logging_error "Order with ID {} not found" [ArgUUID order_id]
  | Some _ => ret tt
  end ;;
  ret entity.

Definition get_all_orders (status : option OrderStatus) : Py num (list Order.t) :=
  match status with
  | Some st =>
      db_query (fun s =>
        filter (fun o => match Order.order_status o with
                         | Some x => OrderStatus_eqb x st
                         | None => false
                         end) (orders s))
  | None => db_query (fun s => orders s)
  end.

Definition delete_order_by_id (order_id : uuid) : Py num unit :=
  entity <- get_order_by_id order_id ;;
  match entity with
  | Some e =>
      db_delete_order e ;;
      db_commit ;;
      logging_info "Order with ID {} deleted" [ArgUUID order_id]
  | None =>
      logging_error "Failed to delete order with ID {}: not found" [ArgUUID order_id]
  end.

Definition create_pizza (pizza_type : option (PizzaType.t num)) : Py num Pizza.t :=
  entity <- new_Pizza ;;
  let entity :=
    match pizza_type with
    | Some pt => Pizza.mk (Pizza.id entity) (Some (PizzaType.id pt)) (Pizza.order_id entity)
    | None => entity
    end in
  db_add_pizza entity ;;
  db_commit ;;
  type_id <- getattr_id pizza_type ;;
  logging_info "Pizza created with type ID {}" [ArgUUID type_id] ;;
  ret entity.

Definition add_pizza_to_order (order : Order.t)
    (pizza_type : option (PizzaType.t num)) : Py num Pizza.t :=
  pizza <- create_pizza pizza_type ;;
  pizza <- order_pizzas_append order pizza ;;
  db_commit ;;
  db_refresh order ;;
  logging_info "Pizza with ID {} added to order ID {}"
    [ArgUUID (Pizza.id pizza); ArgUUID (Order.id order)] ;;
  ret pizza.

Definition delete_pizza_from_order (order : Order.t) (pizza_id : uuid)
    : Py num bool :=
  entity <- db_query (fun s =>
              find (fun p => fk_eqb (Pizza.order_id p) (Order.id order)
                             && uuid_eqb (Pizza.id p) pizza_id) (pizzas s)) ;;
  match entity with
  | Some e =>
      db_delete_pizza e ;;
      db_commit ;;
      logging_info "Pizza with ID {} deleted from order ID {}"
        [ArgUUID pizza_id; ArgUUID (Order.id order)] ;;
      ret true
  | None =>
      logging_error "Failed to delete pizza with ID {} from order ID {}: not found"
        [ArgUUID pizza_id; ArgUUID (Order.id order)] ;;
      ret false
  end.

Definition create_beverage_quantity (order : Order.t)
    (schema : OrderBeverageQuantityCreateSchema.t)
    : Py num OrderBeverageQuantity.t :=
  let entity := OrderBeverageQuantity.mk None
                  (OrderBeverageQuantityCreateSchema.beverage_id schema)
                  (OrderBeverageQuantityCreateSchema.quantity schema) in
  entity <- order_beverages_append order entity ;;
  db_commit ;;
  db_refresh order ;;
  logging_info "Beverage quantity created for order ID {}" [ArgUUID (Order.id order)] ;;
  ret entity.

Definition update_beverage_quantity_of_order (order_id beverage_id : uuid)
    (new_quantity : Z) : Py num (option OrderBeverageQuantity.t) :=
  order_beverage <- db_query (fun s =>
                      find (obq_key order_id beverage_id)
                           (order_beverage_quantities s)) ;;
  match order_beverage with
  | Some e =>
      e <- setattr_quantity order_id beverage_id e new_quantity ;;
      db_commit ;;
      db_refresh e ;;
      logging_info "Beverage quantity updated for beverage ID {} in order ID {}"
        [ArgUUID beverage_id; ArgUUID order_id] ;;
      ret (Some e)
  | None =>
      logging_error "Beverage quantity with beverage ID {} and order ID {} not found"
        [ArgUUID beverage_id; ArgUUID order_id] ;;
      ret None
  end.

(** The first query of [get_price_of_order]:
    Beverage JOIN OrderBeverageQuantity JOIN Order WHERE Order.id = ?,
    projected on (Beverage.price, OrderBeverageQuantity.quantity). *)
Definition beverage_price_rows (order_id : uuid) (s : Store num) : list (num * Z) :=
  map (fun r => (Beverage.price (fst (fst r)),
                 OrderBeverageQuantity.quantity (snd (fst r))))
    (filter (fun r => uuid_eqb (Order.id (snd r)) order_id)
       (join
          (join (beverages s) (order_beverage_quantities s)
                (fun b q => uuid_eqb (OrderBeverageQuantity.beverage_id q) (Beverage.id b)))
          (orders s)
          (fun bq o => fk_eqb (OrderBeverageQuantity.order_id (snd bq)) (Order.id o)))).

(** The rows the aggregate of the second query ranges over:
    PizzaType JOIN Pizza JOIN Order WHERE Order.id = ?, projected on
    PizzaType.price. *)
Definition pizza_price_rows (order_id : uuid) (s : Store num) : list num :=
  map (fun r => PizzaType.price (fst (fst r)))
    (filter (fun r => uuid_eqb (Order.id (snd r)) order_id)
       (join
          (join (pizza_types s) (pizzas s)
                (fun t p => fk_eqb (Pizza.pizza_type_id p) (PizzaType.id t)))
          (orders s)
          (fun tp o => fk_eqb (Pizza.order_id (snd tp)) (Order.id o)))).

(** SQL [SUM]: NULL over no rows. *)
Definition sql_sum (l : list num) : option num :=
  match l with
  | [] => None
  | x :: r => Some (fold_left nadd r x)
  end.

Definition get_price_of_order (order_id : uuid) : Py num num :=
  rows <- db_query (beverage_price_rows order_id) ;;
  let price_beverage :=
    fold_left (fun acc row => nadd acc (nmul (fst row) (of_int (snd row))))
              rows (of_int 0) in
  price_pizza <- db_query (fun s => sql_sum (pizza_price_rows order_id s)) ;;
  match price_pizza with
  | None =>
      logging_info "Calculated price for order ID {}: {}"
        [ArgUUID order_id; ArgNumber price_beverage] ;;
      ret price_beverage
  | Some price_pizza =>
      let total_price := nadd price_pizza price_beverage in
      logging_info "Calculated price for order ID {}: {}"
        [ArgUUID order_id; ArgNumber total_price] ;;
      ret total_price
  end.

End Operations.

(** ** The other operations of [order/crud.py] *)

(** One row of [get_all_pizzas_of_order]: the columns Pizza.id,
    PizzaType.name, PizzaType.price, PizzaType.description and
    PizzaType.dough_id of the query. *)
Module JoinedPizzaPizzaType.
Record t (num : Type) : Type := mk {
  id : uuid;
  name : string;
  price : num;
  description : string;
  dough_id : uuid
}.
End JoinedPizzaPizzaType.

Section MoreOperations.
Context {num : Type}.

(** [setattr(order, 'order_status', v)]: the row of the loaded order is
    written. *)
Definition setattr_order_status (order : Order.t) (v : OrderStatus)
    : Py num Order.t :=
  let order' := Order.mk (Order.id order) (Order.user_id order)
                         (Order.address_id order) (Some v) in
  db_flush (fun s =>
    with_orders s
      (map (fun o => if uuid_eqb (Order.id o) (Order.id order) then order' else o)
           (orders s))) ;;
  ret order'.

Fixpoint remove_first {A} (p : A -> bool) (l : list A) : list A :=
  match l with
  | [] => []
  | x :: r => if p x then r else x :: remove_first p r
  end.

(** [db.delete(entity)] on a beverage quantity loaded with [first()] by the
    pair: the one row the entity stands for is deleted. *)
Definition db_delete_beverage_quantity (order_id beverage_id : uuid)
    : Py num unit :=
  db_flush (fun s =>
    with_order_beverage_quantities s
      (remove_first (obq_key order_id beverage_id) (order_beverage_quantities s))).

Definition update_order_status (order : Order.t) (changed_order : OrderStatus)
    : Py num Order.t :=
  order <- setattr_order_status order changed_order ;;
  db_commit ;;
  db_refresh order ;;
  logging_info "Order ID {} status updated to {}"
    [ArgUUID (Order.id order); ArgStatus changed_order] ;;
  ret order.

Definition get_pizza_by_id (pizza_id : uuid) : Py num (option Pizza.t) :=
  entity <- db_query (fun s =>
              find (fun p => uuid_eqb (Pizza.id p) pizza_id) (pizzas s)) ;;
  match entity with
  | None => logging_error "Pizza with ID {} not found" [ArgUUID pizza_id]
  | Some _ => ret tt
  end ;;
  ret entity.

(** Pizza JOIN PizzaType (over Pizza.pizza_type) WHERE Pizza.order_id = ?,
    projected on the five columns; the loop copies the rows to the list it
    returns. *)
Definition get_all_pizzas_of_order (order : Order.t)
    : Py num (list (JoinedPizzaPizzaType.t num)) :=
  pizza_types <- db_query (fun s =>
    map (fun r => JoinedPizzaPizzaType.mk
                    (Pizza.id (fst r)) (PizzaType.name (snd r))
                    (PizzaType.price (snd r)) (PizzaType.description (snd r))
                    (PizzaType.dough_id (snd r)))
      (filter (fun r => fk_eqb (Pizza.order_id (fst r)) (Order.id order))
         (join (pizzas s) (pizza_types s)
               (fun p t => fk_eqb (Pizza.pizza_type_id p) (PizzaType.id t))))) ;;
  let returnlist := fold_left (fun acc pizza_type => acc ++ [pizza_type])
                              pizza_types [] in
  ret returnlist.

Definition get_beverage_quantity_by_id (order_id beverage_id : uuid)
    : Py num (option OrderBeverageQuantity.t) :=
  entity <- db_query (fun s =>
              find (fun q => uuid_eqb (OrderBeverageQuantity.beverage_id q) beverage_id
                             && fk_eqb (OrderBeverageQuantity.order_id q) order_id)
                   (order_beverage_quantities s)) ;;
  match entity with
  | None =>
      logging_error "Beverage quantity with beverage ID {} and order ID {} not found"
        [ArgUUID beverage_id; ArgUUID order_id]
  | Some _ => ret tt
  end ;;
  ret entity.

Definition get_joined_beverage_quantities_by_order (order_id : uuid)
    : Py num (list OrderBeverageQuantity.t) :=
  db_query (fun s =>
    filter (fun q => fk_eqb (OrderBeverageQuantity.order_id q) order_id)
           (order_beverage_quantities s)).

Definition delete_beverage_from_order (order_id beverage_id : uuid)
    : Py num bool :=
  entity <- db_query (fun s =>
              find (obq_key order_id beverage_id) (order_beverage_quantities s)) ;;
  match entity with
  | Some e =>
      db_delete_beverage_quantity order_id beverage_id ;;
      db_commit ;;
      logging_info "Beverage with ID {} deleted from order ID {}"
        [ArgUUID beverage_id; ArgUUID order_id] ;;
      ret true
  | None =>
      logging_error "Failed to delete beverage with ID {} from order ID {}: not found"
        [ArgUUID beverage_id; ArgUUID order_id] ;;
      ret false
  end.

End MoreOperations.

(** ** The shape of the two queries of [get_price_of_order]

    Both queries join a catalog table [T] (beverages, pizza types) with the
    rows [Ms] that reference it (beverage quantities, pizzas) and with the
    orders, and keep the rows of one order. *)

Section OrderQueryShape.
Variables A M : Type.
Variable kA : A -> uuid.
Variables fkA fkO : M -> option uuid.
Variable T : list A.
Variable Ms : list M.
Variable O : list Order.t.
Variable oid : uuid.

Definition order_query : list (A * M * Order.t) :=
  filter (fun r => uuid_eqb (Order.id (snd r)) oid)
    (join (join T Ms (fun t m => fk_eqb (fkA m) (kA t)))
          O
          (fun tm o => fk_eqb (fkO (snd tm)) (Order.id o))).

(** The catalog row a referencing row points to. *)
Definition referenced (m : M) : option A :=
  find (fun t => fk_eqb (fkA m) (kA t)) T.

End OrderQueryShape.

(** ** The specification's reading of the operations

    What the specification says in words, written over the tables without
    the queries of the code. *)

Section Reading.
Context {num : Type}.

(** The beverage-quantity rows and the pizza rows of an order. *)
Definition beverage_rows_of (order_id : uuid) (s : Store num)
    : list OrderBeverageQuantity.t :=
  filter (fun q => fk_eqb (OrderBeverageQuantity.order_id q) order_id)
         (order_beverage_quantities s).

Definition pizza_rows_of (order_id : uuid) (s : Store num) : list Pizza.t :=
  filter (fun p => fk_eqb (Pizza.order_id p) order_id) (pizzas s).

(** The order's pizza count. *)
Definition pizza_count (order : Order.t) (s : Store num) : nat :=
  List.length (pizza_rows_of (Order.id order) s).

(** A pizza with that id belongs to the order. *)
Definition pizza_of_order (order : Order.t) (pizza_id : uuid) (s : Store num) : Prop :=
  exists p, In p (pizzas s) /\ Pizza.id p = pizza_id
            /\ Pizza.order_id p = Some (Order.id order).

(** A beverage-quantity row exists for the pair. *)
Definition beverage_quantity_exists (order_id beverage_id : uuid) (s : Store num)
    : Prop :=
  exists q, In q (order_beverage_quantities s)
            /\ OrderBeverageQuantity.order_id q = Some order_id
            /\ OrderBeverageQuantity.beverage_id q = beverage_id.

(** An order with that id exists. *)
Definition order_exists (order_id : uuid) (s : Store num) : Prop :=
  In order_id (map Order.id (orders s)).

(** Primary keys of the tables the price is computed from. *)
Definition primary_keys (s : Store num) : Prop :=
  NoDup (map Order.id (orders s))
  /\ NoDup (map (@Beverage.id num) (beverages s))
  /\ NoDup (map (@PizzaType.id num) (pizza_types s)).

(** The rows of the order reference catalog rows that exist: a beverage for
    every beverage-quantity row, a pizza type for every pizza. *)
Definition references_resolve (order_id : uuid) (s : Store num) : Prop :=
  (forall q, In q (beverage_rows_of order_id s) ->
     exists b, In b (beverages s)
               /\ OrderBeverageQuantity.beverage_id q = Beverage.id b)
  /\ (forall p, In p (pizza_rows_of order_id s) ->
     exists t, In t (pizza_types s)
               /\ Pizza.pizza_type_id p = Some (PizzaType.id t)).

(** The world after a call that only wrote to the log. *)
Definition logged (r : LogRecord num) (w : World num) : World num :=
  mkWorld (session w) (database w) (log w ++ [r]).

Context `{Number num}.

(** The price of the beverage of a row, and of the type of a pizza. *)
Definition price_of_beverage (s : Store num) (q : OrderBeverageQuantity.t) : num :=
  match find (fun b => uuid_eqb (OrderBeverageQuantity.beverage_id q) (Beverage.id b))
             (beverages s) with
  | Some b => Beverage.price b
  | None => of_int 0
  end.

Definition price_of_pizza (s : Store num) (p : Pizza.t) : num :=
  match find (fun t => fk_eqb (Pizza.pizza_type_id p) (PizzaType.id t))
             (pizza_types s) with
  | Some t => PizzaType.price t
  | None => of_int 0
  end.

(** The summands: beverage.price x quantity for every beverage-quantity row
    of the order, and pizza_type.price for every pizza row of the order. *)
Definition beverage_lines (order_id : uuid) (s : Store num) : list num :=
  map (fun q => nmul (price_of_beverage s q)
                     (of_int (OrderBeverageQuantity.quantity q)))
      (beverage_rows_of order_id s).

Definition pizza_prices (order_id : uuid) (s : Store num) : list num :=
  map (price_of_pizza s) (pizza_rows_of order_id s).

(** The beverage summands added up from 0. *)
Definition sum_from_zero (bs : list num) : num := fold_left nadd bs (of_int 0).

(** The total of pizza summands [ps] and beverage summands [bs], added in
    the order of the lists: the beverage sum alone when there is no pizza
    summand, the pizza sum plus the beverage sum otherwise. *)
Definition total_of (ps bs : list num) : num :=
  match ps with
  | [] => sum_from_zero bs
  | x :: r => nadd (fold_left nadd r x) (sum_from_zero bs)
  end.

Definition beverage_sum (order_id : uuid) (s : Store num) : num :=
  sum_from_zero (beverage_lines order_id s).

Definition spec_price_of_order (order_id : uuid) (s : Store num) : num :=
  total_of (pizza_prices order_id s) (beverage_lines order_id s).

Definition price_log (order_id : uuid) (x : num) : LogRecord num :=
  mkLog INFO "Calculated price for order ID {}: {}" [ArgUUID order_id; ArgNumber x].

End Reading.

(** ** Concrete stores *)

(** The shop of the specification's scenario, in binary64 prices. *)
Definition margherita : PizzaType.t float :=
  PizzaType.mk 7%N "Margherita" 8%float "Tomato and mozzarella" 3%N.

Definition cola : Beverage.t float := Beverage.mk 5%N 1.5%float.

Definition shop : World float :=
  let s := mkStore [] [] [margherita] [] [cola] [] in
  mkWorld s s [].

(** create order U1, add a Margherita, add Cola with quantity 2, ask for the
    price. *)
Definition scenario : Py float float :=
  order <- create_order (OrderCreateSchema.mk 1%N [("street", "Schoefferstrasse 3")]%string) ;;
  _ <- add_pizza_to_order order (Some margherita) ;;
  _ <- create_beverage_quantity order
         (OrderBeverageQuantityCreateSchema.mk (Beverage.id cola) 2) ;;
  get_price_of_order (Order.id order).

(** A store with two orders, in exact prices: order 1 has three pizzas (two
    of one type) and two beverage rows, order 2 one pizza and one beverage
    row. *)
Definition bistro_store : Store Q :=
  mkStore
    [Address.mk 1%N [("town", "Darmstadt")]%string;
     Address.mk 2%N [("town", "Dieburg")]%string]
    [Order.mk 1%N 10%N (Some 1%N) (Some TRANSMITTED);
     Order.mk 2%N 11%N (Some 2%N) (Some (OtherStatus 1))]
    [PizzaType.mk 1%N "Margherita" (8#1)%Q "" 1%N;
     PizzaType.mk 2%N "Salami" (10#1)%Q "" 1%N]
    [Pizza.mk 1%N (Some 1%N) (Some 1%N);
     Pizza.mk 2%N (Some 2%N) (Some 1%N);
     Pizza.mk 3%N (Some 1%N) (Some 1%N);
     Pizza.mk 4%N (Some 2%N) (Some 2%N)]
    [Beverage.mk 1%N (5#2)%Q; Beverage.mk 2%N (1#1)%Q]
    [OrderBeverageQuantity.mk (Some 1%N) 1%N 3;
     OrderBeverageQuantity.mk (Some 1%N) 2%N 2;
     OrderBeverageQuantity.mk (Some 2%N) 1%N 1].

Definition bistro : World Q := mkWorld bistro_store bistro_store [].

(** ** Facts about lists, filters and joins *)

Section ListFacts.
Variables A B : Type.

Lemma filter_none (p : A -> bool) (l : list A) :
  (forall x, In x l -> p x = false) -> filter p l = [].
Proof.
  induction l as [|a l IH]; intros Hp; simpl; [reflexivity|].
  rewrite (Hp a (or_introl eq_refl)). apply IH.
  intros x Hx. apply Hp. now right.
Qed.

Lemma filter_map_commute (p : B -> bool) (f : A -> B) (l : list A) :
  filter p (map f l) = map f (filter (fun x => p (f x)) l).
Proof.
  induction l as [|a l IH]; simpl; [reflexivity|].
  destruct (p (f a)); simpl; now rewrite IH.
Qed.

Lemma filter_and (p q : A -> bool) (l : list A) :
  filter p (filter q l) = filter (fun x => q x && p x) l.
Proof.
  induction l as [|a l IH]; simpl; [reflexivity|].
  destruct (q a); simpl; [destruct (p a)|]; now rewrite IH.
Qed.

Lemma filter_flat_map (p : B -> bool) (f : A -> list B) (l : list A) :
  filter p (flat_map f l) = flat_map (fun x => filter p (f x)) l.
Proof.
  induction l as [|a l IH]; simpl; [reflexivity|].
  now rewrite filter_app, IH.
Qed.

Lemma flat_map_nil (l : list A) : flat_map (fun _ : A => @nil B) l = [].
Proof. induction l; simpl; auto. Qed.

Lemma flat_map_choice (p : A -> bool) (f : A -> B) (l : list A) :
  flat_map (fun x => if p x then [f x] else []) l = map f (filter p l).
Proof.
  induction l as [|a l IH]; simpl; [reflexivity|].
  destruct (p a); simpl; now rewrite IH.
Qed.

Lemma flat_map_app_perm (g h : A -> list B) (l : list A) :
  Permutation (flat_map (fun x => g x ++ h x) l) (flat_map g l ++ flat_map h l).
Proof.
  induction l as [|a l IH]; simpl; [constructor|].
  rewrite <- !app_assoc. apply Permutation_app_head.
  rewrite IH. rewrite !app_assoc. apply Permutation_app_tail.
  apply Permutation_app_comm.
Qed.

Lemma find_filter (p : A -> bool) (l : list A) :
  find p l = hd_error (filter p l).
Proof.
  induction l as [|a l IH]; simpl; [reflexivity|].
  destruct (p a); simpl; auto.
Qed.

Lemma find_none_iff (p : A -> bool) (l : list A) :
  find p l = None <-> (forall x, In x l -> p x = false).
Proof.
  split.
  - apply find_none.
  - intros Hp. induction l as [|a l IH]; simpl; [reflexivity|].
    rewrite (Hp a (or_introl eq_refl)). apply IH.
    intros x Hx. apply Hp. now right.
Qed.

(** A key that is unique in a table selects one row. *)
Lemma filter_key_unique (k : A -> uuid) (l : list A) (x : A) :
  NoDup (map k l) -> In x l ->
  filter (fun y => uuid_eqb (k x) (k y)) l = [x].
Proof.
  unfold uuid_eqb.
  induction l as [|a l IH]; simpl; intros Hnd Hin; [contradiction|].
  inversion Hnd as [|? ? Hnot Hnd']; subst.
  destruct Hin as [->|Hin].
  - rewrite N.eqb_refl. f_equal. apply filter_none.
    intros y Hy. apply N.eqb_neq. intros E.
    apply Hnot. rewrite E. now apply in_map.
  - replace (N.eqb (k x) (k a)) with false; [now apply IH|].
    symmetry. apply N.eqb_neq. intros E.
    apply Hnot. rewrite <- E. now apply in_map.
Qed.

End ListFacts.

Section JoinFacts.
Variables A B : Type.

Lemma in_join (l : list A) (r : list B) (on : A -> B -> bool) (a : A) (b : B) :
  In (a, b) (join l r on) <-> In a l /\ In b r /\ on a b = true.
Proof.
  unfold join. rewrite in_flat_map. split.
  - intros (a' & Ha & Hin). apply in_map_iff in Hin.
    destruct Hin as (b' & E & Hb). inversion E; subst.
    apply filter_In in Hb. tauto.
  - intros (Ha & Hb & Hon). exists a. split; [assumption|].
    apply in_map. apply filter_In. tauto.
Qed.

Lemma filter_join_right (p : B -> bool) (l : list A) (r : list B)
    (on : A -> B -> bool) :
  filter (fun ab => p (snd ab)) (join l r on) = join l (filter p r) on.
Proof.
  unfold join. rewrite filter_flat_map. apply flat_map_ext. intros a.
  rewrite filter_map_commute. simpl. f_equal.
  rewrite !filter_and. apply filter_ext. intros b. apply andb_comm.
Qed.

(** The two nestings of the loop of a join yield the same rows. *)
Lemma join_swap (l : list A) (r : list B) (on : A -> B -> bool) :
  Permutation (join l r on)
    (flat_map (fun b => map (fun a => (a, b)) (filter (fun a => on a b) l)) r).
Proof.
  unfold join. induction l as [|a l IH]; simpl.
  - rewrite flat_map_nil. constructor.
  - rewrite IH.
    rewrite <- (flat_map_choice (on a) (pair a) r).
    rewrite <- flat_map_app_perm.
    apply Permutation_refl'. apply flat_map_ext. intros b.
    destruct (on a b); reflexivity.
Qed.

End JoinFacts.

(** ** Facts about the two queries of [get_price_of_order] *)

Section OrderQueryFacts.
Variables A M : Type.
Variable kA : A -> uuid.
Variables fkA fkO : M -> option uuid.
Variable T : list A.
Variable Ms : list M.
Variable O : list Order.t.
Variable oid : uuid.

Local Abbreviation order_query := (order_query kA fkA fkO T Ms O oid).
Local Abbreviation referenced := (referenced kA fkA T).

Lemma order_query_in (r : A * M * Order.t) :
  In r order_query ->
  In (snd r) O /\ Order.id (snd r) = oid /\
  In (snd (fst r)) Ms /\ fk_eqb (fkO (snd (fst r))) oid = true.
Proof.
  unfold order_query. destruct r as [[t m] o]. simpl.
  rewrite filter_In. simpl. intros [Hin Hid].
  apply N.eqb_eq in Hid.
  apply in_join in Hin. destruct Hin as (Htm & Ho & Hon).
  apply in_join in Htm. destruct Htm as (_ & Hm & _).
  simpl in Hon. rewrite Hid in Hon. auto.
Qed.

Lemma order_query_no_order :
  ~ In oid (map Order.id O) -> order_query = [].
Proof.
  intros Hno. destruct order_query as [|r l] eqn:E; [reflexivity|].
  exfalso. apply Hno.
  destruct (@order_query_in r) as (Ho & Hid & _).
  - rewrite E. now left.
  - rewrite <- Hid. now apply in_map.
Qed.

Lemma order_query_no_rows :
  (forall m, In m Ms -> fk_eqb (fkO m) oid = false) -> order_query = [].
Proof.
  intros Hno. destruct order_query as [|r l] eqn:E; [reflexivity|].
  exfalso.
  destruct (@order_query_in r) as (_ & _ & Hm & Hfk).
  - rewrite E. now left.
  - rewrite (Hno _ Hm) in Hfk. discriminate.
Qed.

Hypothesis catalog_keys : NoDup (map kA T).
Hypothesis order_keys : NoDup (map Order.id O).
Hypothesis order_known : In oid (map Order.id O).
Hypothesis resolves :
  forall m, In m Ms -> fk_eqb (fkO m) oid = true ->
  exists t, In t T /\ fkA m = Some (kA t).

Lemma order_query_left (L : list (A * M)) :
  map fst
    (filter (fun r : A * M * Order.t => uuid_eqb (Order.id (snd r)) oid)
       (join L O (fun tm o => fk_eqb (fkO (snd tm)) (Order.id o))))
  = filter (fun tm => fk_eqb (fkO (snd tm)) oid) L.
Proof.
  destruct (proj1 (in_map_iff _ _ _) order_known) as (o0 & Hid0 & Hin0).
  induction L as [|tm L IH]; [reflexivity|].
  unfold join in *. simpl. rewrite filter_app, map_app, IH. clear IH.
  rewrite filter_map_commute, map_map, filter_and. simpl.
  destruct (fk_eqb (fkO (snd tm)) oid) eqn:Hfk.
  - rewrite (filter_ext _ (fun o => uuid_eqb (Order.id o0) (Order.id o))).
    + rewrite (filter_key_unique Order.id O o0 order_keys Hin0). reflexivity.
    + intros o. rewrite Hid0. unfold uuid_eqb.
      destruct (N.eqb_spec (Order.id o) oid) as [->|Hne].
      * now rewrite Hfk, N.eqb_refl.
      * rewrite andb_false_r. symmetry. apply N.eqb_neq. congruence.
  - rewrite filter_none; [reflexivity|].
    intros o _. unfold uuid_eqb.
    destruct (N.eqb_spec (Order.id o) oid) as [->|Hne].
    + now rewrite Hfk.
    + apply andb_false_r.
Qed.

Lemma referenced_rows (L : list M) :
  (forall m, In m L -> exists t, In t T /\ fkA m = Some (kA t)) ->
  map (fun tm : A * M => (Some (fst tm), snd tm))
    (flat_map
       (fun m => map (fun t => (t, m)) (filter (fun t => fk_eqb (fkA m) (kA t)) T))
       L)
  = map (fun m => (referenced m, m)) L.
Proof.
  induction L as [|m L IH]; intros Hres; [reflexivity|].
  simpl. rewrite map_app, IH by (intros x Hx; apply Hres; now right).
  destruct (Hres m (or_introl eq_refl)) as (t & Ht & Hfk).
  unfold referenced. rewrite find_filter.
  rewrite (filter_ext _ (fun y => uuid_eqb (kA t) (kA y)))
    by (intros y; now rewrite Hfk).
  rewrite (filter_key_unique kA T t catalog_keys Ht). reflexivity.
Qed.

(** The rows of the query are, up to their order, the referencing rows of
    the order, each once and with the catalog row it points to. *)
Lemma order_query_rows :
  Permutation
    (map (fun r : A * M * Order.t => (Some (fst (fst r)), snd (fst r))) order_query)
    (map (fun m => (referenced m, m)) (filter (fun m => fk_eqb (fkO m) oid) Ms)).
Proof.
  unfold order_query.
  rewrite <- (map_map fst (fun tm : A * M => (Some (fst tm), snd tm))).
  rewrite order_query_left.
  rewrite (filter_join_right (fun m => fk_eqb (fkO m) oid)).
  rewrite <- referenced_rows.
  - apply Permutation_map. apply join_swap.
  - intros m Hm. apply filter_In in Hm. destruct Hm as [Hm Hfk]. now apply resolves.
Qed.

End OrderQueryFacts.

(** ** Sums of prices *)

Lemma fold_left_nadd_map (num : Type) `{Number num} (X : Type) (g : X -> num) (l : list X) (a : num) :
  fold_left (fun acc x => nadd acc (g x)) l a = fold_left nadd (map g l) a.
Proof.
  revert a. induction l as [|x l IH]; intros a; simpl; [reflexivity|apply IH].
Qed.

Section Sums.
Context {num : Type} `{ExactNumber num}.

Lemma fold_left_nadd_perm (l l' : list num) :
  Permutation l l' -> forall a, fold_left nadd l a = fold_left nadd l' a.
Proof.
  induction 1 as [|x l l' _ IH|x y l|l l' l'' _ IH1 _ IH2]; intros a; simpl.
  - reflexivity.
  - apply IH.
  - f_equal. rewrite <- !nadd_assoc. f_equal. apply nadd_comm.
  - now rewrite IH1.
Qed.

Lemma sql_sum_perm (l l' : list num) :
  Permutation l l' -> sql_sum l = sql_sum l'.
Proof.
  induction 1 as [|x l l' Hp _|x y l|l l' l'' _ IH1 _ IH2]; simpl.
  - reflexivity.
  - f_equal. now apply fold_left_nadd_perm.
  - do 2 f_equal. apply nadd_comm.
  - now rewrite IH1.
Qed.

End Sums.

(** The rationals add exactly. *)
#[export] Instance ExactNumber_Q : @ExactNumber Q Number_Q.
Proof.
  split; simpl.
  - intros [a b] [c d]. unfold Qplus. simpl. f_equal; [ring|apply Pos.mul_comm].
  - intros [a b] [c d] [e f]. unfold Qplus. simpl.
    f_equal; [|apply Pos.mul_assoc].
    rewrite !Pos2Z.inj_mul. ring.
Qed.

(** ** The price of an order *)

Section Price.
Context {num : Type} `{Number num}.

(** The rows of the first query carry, up to their order, the summands of
    the beverage-quantity rows of the order. *)
Lemma beverage_price_rows_perm (order_id : uuid) (s : Store num) :
  primary_keys s -> order_exists order_id s -> references_resolve order_id s ->
  Permutation
    (map (fun row => nmul (fst row) (of_int (snd row)))
         (beverage_price_rows order_id s))
    (beverage_lines order_id s).
Proof.
  intros (Hko & Hkb & _) Hex (Hres & _).
  unfold beverage_price_rows, beverage_lines. rewrite map_map. simpl.
  pose (g := fun x : option (Beverage.t num) * OrderBeverageQuantity.t =>
               nmul (match fst x with
                     | Some b => Beverage.price b
                     | None => of_int 0
                     end)
                    (of_int (OrderBeverageQuantity.quantity (snd x)))).
  assert (P := order_query_rows (@Beverage.id num)
                 (fun q => Some (OrderBeverageQuantity.beverage_id q))
                 OrderBeverageQuantity.order_id
                 (beverages s) (order_beverage_quantities s) (orders s) order_id
                 Hkb Hko Hex).
  specialize (P (fun q Hq Hfk =>
    match Hres q (proj2 (filter_In _ _ _) (conj Hq Hfk)) with
    | ex_intro _ b (conj Hb E) => ex_intro _ b (conj Hb (f_equal Some E))
    end)).
  apply (Permutation_map g) in P. rewrite !map_map in P.
  exact P.
Qed.

(** The rows the aggregate ranges over are, up to their order, the prices
    of the types of the pizza rows of the order. *)
Lemma pizza_price_rows_perm (order_id : uuid) (s : Store num) :
  primary_keys s -> order_exists order_id s -> references_resolve order_id s ->
  Permutation (pizza_price_rows order_id s) (pizza_prices order_id s).
Proof.
  intros (Hko & _ & Hkt) Hex (_ & Hres).
  pose (g := fun x : option (PizzaType.t num) * Pizza.t =>
               match fst x with
               | Some t => PizzaType.price t
               | None => of_int 0
               end).
  assert (P := order_query_rows (@PizzaType.id num) Pizza.pizza_type_id Pizza.order_id
                 (pizza_types s) (pizzas s) (orders s) order_id Hkt Hko Hex).
  specialize (P (fun p Hp Hfk => Hres p (proj2 (filter_In _ _ _) (conj Hp Hfk)))).
  apply (Permutation_map g) in P. rewrite !map_map in P.
  exact P.
Qed.

(** What the body of [get_price_of_order] computes from the rows of its two
    queries. *)
Lemma get_price_of_order_rows (order_id : uuid) (w : World num) :
  let x := total_of (pizza_price_rows order_id (session w))
             (map (fun row => nmul (fst row) (of_int (snd row)))
                  (beverage_price_rows order_id (session w))) in
  get_price_of_order order_id w = (Returned x, logged (price_log order_id x) w).
Proof.
  unfold get_price_of_order, bind, db_query, total_of, sum_from_zero. simpl.
  rewrite <- fold_left_nadd_map.
  destruct (pizza_price_rows order_id (session w)); reflexivity.
Qed.

Lemma total_of_perm `{!ExactNumber} (ps ps' bs bs' : list num) :
  Permutation ps ps' -> Permutation bs bs' -> total_of ps bs = total_of ps' bs'.
Proof.
  intros Hp Hb. unfold total_of, sum_from_zero.
  rewrite (fold_left_nadd_perm Hb).
  apply sql_sum_perm in Hp.
  destruct ps, ps'; simpl in Hp; try discriminate; [reflexivity|].
  inversion Hp. reflexivity.
Qed.

End Price.

Lemma filter_nil_inv (A : Type) (p : A -> bool) (l : list A) :
  filter p l = [] -> forall x, In x l -> p x = false.
Proof.
  intros E x Hx. destruct (p x) eqn:Hp; [|reflexivity].
  assert (Hin : In x (filter p l)) by (apply filter_In; auto).
  rewrite E in Hin. contradiction.
Qed.

Lemma beverage_price_rows_query (num : Type) (order_id : uuid) (s : Store num) :
  beverage_price_rows order_id s
  = map (fun r => (Beverage.price (fst (fst r)),
                   OrderBeverageQuantity.quantity (snd (fst r))))
        (order_query (@Beverage.id num)
           (fun q => Some (OrderBeverageQuantity.beverage_id q))
           OrderBeverageQuantity.order_id
           (beverages s) (order_beverage_quantities s) (orders s) order_id).
Proof. reflexivity. Qed.

Lemma pizza_price_rows_query (num : Type) (order_id : uuid) (s : Store num) :
  pizza_price_rows order_id s
  = map (fun r => PizzaType.price (fst (fst r)))
        (order_query (@PizzaType.id num) Pizza.pizza_type_id Pizza.order_id
           (pizza_types s) (pizzas s) (orders s) order_id).
Proof. reflexivity. Qed.

(** An order without pizza rows: the aggregate of the second query is
    absent, whatever else the store holds. *)
Lemma pizza_aggregate_absent (num : Type) `{Number num} (order_id : uuid)
    (s : Store num) :
  pizza_rows_of order_id s = [] -> sql_sum (pizza_price_rows order_id s) = None.
Proof.
  intros E. rewrite pizza_price_rows_query.
  rewrite order_query_no_rows; [reflexivity|].
  apply filter_nil_inv. exact E.
Qed.

Ltac nodup_keys :=
  simpl; repeat (constructor; [simpl; intuition discriminate|]); constructor.

(** C1. For every order of a store whose primary keys are unique and whose
    rows reference catalog rows that exist, [get_price_of_order] returns the
    sum over the order's beverage-quantity rows of beverage price times
    quantity plus the sum of the pizza-type prices, one summand for each
    pizza row of the order (no quantity, no deduplication of shared types),
    the summands taken in the order the queries yield them; for prices that
    add exactly this is the sum in any order.  When the order has no pizza
    the pizza aggregate is absent and the beverage sum alone is returned.
    In binary64 prices, one pizza of type price 8 and a beverage of price
    1.50 with quantity 2 give 11.00. *)
Theorem get_price_of_order_sum :
  (forall (num : Type) (N : Number num) (w : World num) (order_id : uuid),
     primary_keys (session w) ->
     order_exists order_id (session w) ->
     references_resolve order_id (session w) ->
     (exists ps bs : list num,
        Permutation ps (pizza_prices order_id (session w))
        /\ Permutation bs (beverage_lines order_id (session w))
        /\ get_price_of_order order_id w
           = (Returned (total_of ps bs),
              logged (price_log order_id (total_of ps bs)) w))
     /\ (@ExactNumber num N ->
         get_price_of_order order_id w
         = (Returned (spec_price_of_order order_id (session w)),
            logged (price_log order_id (spec_price_of_order order_id (session w))) w))
     /\ (pizza_rows_of order_id (session w) = [] ->
         sql_sum (pizza_price_rows order_id (session w)) = None
         /\ exists bs : list num,
              Permutation bs (beverage_lines order_id (session w))
              /\ get_price_of_order order_id w
                 = (Returned (sum_from_zero bs),
                    logged (price_log order_id (sum_from_zero bs)) w)))
  /\ fst (scenario shop) = Returned 11%float.
Proof.
  split.
  - intros num N w order_id Hk Hex Hres.
    assert (Hp := pizza_price_rows_perm Hk Hex Hres).
    assert (Hb := beverage_price_rows_perm Hk Hex Hres).
    assert (R := get_price_of_order_rows order_id w). simpl in R.
    split; [|split].
    + do 2 eexists. split; [exact Hp|]. split; [exact Hb|]. exact R.
    + intros E. rewrite R. unfold spec_price_of_order.
      now rewrite (total_of_perm Hp Hb).
    + intros Hno. split; [now apply pizza_aggregate_absent|].
      eexists. split; [exact Hb|].
      unfold pizza_prices in Hp. rewrite Hno in Hp. simpl in Hp.
      apply Permutation_sym, Permutation_nil in Hp.
      rewrite R, Hp. reflexivity.
  - vm_compute. reflexivity.
Qed.

Lemma get_price_of_order_sum_witness :
  get_price_of_order 1%N bistro
  = (Returned (spec_price_of_order 1%N bistro_store),
     logged (price_log 1%N (spec_price_of_order 1%N bistro_store)) bistro)
  /\ Qeq (spec_price_of_order 1%N bistro_store) (71 # 2).
Proof.
  split; [|vm_compute; reflexivity].
  assert (Hk : primary_keys (session bistro))
    by (unfold primary_keys; repeat split; nodup_keys).
  assert (Hex : order_exists 1%N (session bistro))
    by (unfold order_exists; simpl; auto).
  assert (Hres : references_resolve 1%N (session bistro)).
  { split; intros x Hx; simpl in Hx;
      repeat (destruct Hx as [<-|Hx];
              [solve [ eexists; split; [apply in_eq|reflexivity]
                     | eexists; split; [apply in_cons, in_eq|reflexivity] ]|]);
      contradiction. }
  exact (proj1 (proj2 (proj1 get_price_of_order_sum Q Number_Q bistro 1%N
                         Hk Hex Hres)) ExactNumber_Q).
Defined.

(** C10. For an order id that matches no pizza row and no beverage-quantity
    row, and so for the id of an order that does not exist,
    [get_price_of_order] returns the number 0; it does not raise. *)
Theorem get_price_of_order_nothing :
  forall (num : Type) (N : Number num) (w : World num) (order_id : uuid),
    (pizza_rows_of order_id (session w) = []
     /\ beverage_rows_of order_id (session w) = [])
    \/ ~ order_exists order_id (session w) ->
    get_price_of_order order_id w
    = (Returned (of_int 0), logged (price_log order_id (of_int 0)) w).
Proof.
  intros num N w order_id Hno.
  assert (Hb : beverage_price_rows order_id (session w) = []).
  { rewrite beverage_price_rows_query.
    destruct Hno as [[_ Hq]|Hno].
    - rewrite order_query_no_rows; [reflexivity|]. now apply filter_nil_inv.
    - rewrite order_query_no_order; [reflexivity|exact Hno]. }
  assert (Hp : pizza_price_rows order_id (session w) = []).
  { rewrite pizza_price_rows_query.
    destruct Hno as [[Hp _]|Hno].
    - rewrite order_query_no_rows; [reflexivity|]. now apply filter_nil_inv.
    - rewrite order_query_no_order; [reflexivity|exact Hno]. }
  unfold get_price_of_order, bind, db_query. simpl.
  rewrite Hb, Hp. reflexivity.
Qed.

Lemma get_price_of_order_nothing_witness :
  get_price_of_order 3%N bistro
  = (Returned 0%Q, logged (price_log 3%N 0%Q) bistro).
Proof.
  apply (get_price_of_order_nothing Number_Q bistro 3%N).
  left. split; reflexivity.
Defined.

(** ** Orders *)

(** Runs the session primitives of an operation. *)
Ltac py_run :=
  cbv [bind ret raise db_query db_flush db_commit db_refresh
       logging_info logging_error new_Address new_Order new_Pizza
       db_add_address db_add_order db_add_pizza
       order_pizzas_append order_beverages_append
       db_delete_order db_delete_pizza setattr_quantity getattr_id
       create_address];
  simpl.

Lemma OrderStatus_eqb_eq (a b : OrderStatus) :
  OrderStatus_eqb a b = true <-> a = b.
Proof.
  destruct a as [|x], b as [|y]; simpl; split; try congruence.
  - intros E. apply Pos.eqb_eq in E. now subst.
  - intros E. inversion E. apply Pos.eqb_refl.
Qed.

Lemma find_order_missing (num : Type) (s : Store num) (order_id : uuid) :
  ~ order_exists order_id s ->
  find (fun o => uuid_eqb (Order.id o) order_id) (orders s) = None.
Proof.
  intros Hno. apply find_none_iff. intros o Ho.
  apply N.eqb_neq. intros E. apply Hno.
  unfold order_exists. rewrite <- E. now apply in_map.
Qed.

Lemma find_order_present (num : Type) (s : Store num) (order_id : uuid) :
  order_exists order_id s ->
  exists o, find (fun o => uuid_eqb (Order.id o) order_id) (orders s) = Some o
            /\ Order.id o = order_id.
Proof.
  intros Hex. unfold order_exists in Hex. apply in_map_iff in Hex.
  destruct Hex as (o & Hid & Hin).
  destruct (find (fun o => uuid_eqb (Order.id o) order_id) (orders s)) as [o'|] eqn:F.
  - exists o'. split; [reflexivity|].
    apply find_some in F. now apply N.eqb_eq.
  - exfalso. apply (find_none _ _ F) in Hin.
    apply N.eqb_neq in Hin. contradiction.
Qed.

(** C2. For every order creation schema, [create_order] returns an order
    whose status is the initial value TRANSMITTED and whose address
    reference is set to the address created from the schema's address data;
    the address and the order are committed. *)
Theorem create_order_transmitted :
  forall (num : Type) (w : World num) (schema : OrderCreateSchema.t),
  exists (order : Order.t) (address : Address.t) (w' : World num),
    create_order schema w = (Returned order, w')
    /\ Order.order_status order = Some TRANSMITTED
    /\ Order.user_id order = OrderCreateSchema.user_id schema
    /\ Order.address_id order = Some (Address.id address)
    /\ Address.data address = OrderCreateSchema.address schema
    /\ In address (addresses (database w'))
    /\ In order (orders (database w'))
    /\ session w' = database w'.
Proof.
  intros num w schema.
  pose (a := Address.mk (fresh_uuid (map Address.id (addresses (session w))))
                        (OrderCreateSchema.address schema)).
  exists (Order.mk (fresh_uuid (map Order.id (orders (session w))))
                   (OrderCreateSchema.user_id schema)
                   (Some (Address.id a)) (Some TRANSMITTED)), a.
  eexists. split; [unfold create_order; py_run; reflexivity|]. simpl.
  repeat split; apply in_or_app; right; left; reflexivity.
Qed.

(** C7. For every id for which no order exists, [get_order_by_id] returns
    the empty result; it does not raise, it logs an error and leaves the
    store as it was. *)
Theorem get_order_by_id_missing :
  forall (num : Type) (w : World num) (order_id : uuid),
    ~ order_exists order_id (session w) ->
    get_order_by_id order_id w
    = (Returned None,
       logged (mkLog ERROR "Order with ID {} not found" [ArgUUID order_id]) w).
Proof.
  intros num w order_id Hno.
  unfold get_order_by_id, bind, db_query. simpl.
  rewrite (@find_order_missing _ _ _ Hno). reflexivity.
Qed.

Lemma get_order_by_id_missing_witness :
  get_order_by_id 3%N bistro
  = (Returned None,
     logged (mkLog ERROR "Order with ID {} not found" [ArgUUID 3%N]) bistro).
Proof.
  apply (@get_order_by_id_missing Q bistro 3%N).
  unfold order_exists. simpl. intuition discriminate.
Defined.

(** C9. Without a status [get_all_orders] returns all orders; with a status
    it returns exactly the orders whose status equals it. *)
Theorem get_all_orders_filter :
  forall (num : Type) (w : World num),
    get_all_orders None w = (Returned (orders (session w)), w)
    /\ forall status : OrderStatus,
         exists l, get_all_orders (Some status) w = (Returned l, w)
                   /\ forall o, In o l <->
                                In o (orders (session w))
                                /\ Order.order_status o = Some status.
Proof.
  intros num w. split; [reflexivity|].
  intros status. eexists. split; [reflexivity|].
  intros o. rewrite filter_In.
  destruct (Order.order_status o) as [x|].
  - rewrite OrderStatus_eqb_eq. intuition congruence.
  - intuition discriminate.
Qed.

(** C6. When an order with the id exists, [delete_order_by_id] deletes it
    and commits: no order of that id is left, the other orders stay.  When
    none exists the call changes no table and raises nothing.  A second
    deletion of the same id changes nothing. *)
Theorem delete_order_by_id_idempotent :
  forall (num : Type) (w : World num) (order_id : uuid),
    (order_exists order_id (session w) ->
     exists w', delete_order_by_id order_id w = (Returned tt, w')
       /\ ~ order_exists order_id (database w')
       /\ (forall o, Order.id o <> order_id ->
             (In o (orders (database w')) <-> In o (orders (session w))))
       /\ session w' = database w')
    /\ (~ order_exists order_id (session w) ->
        delete_order_by_id order_id w
        = (Returned tt,
           logged (mkLog ERROR "Failed to delete order with ID {}: not found"
                         [ArgUUID order_id])
             (logged (mkLog ERROR "Order with ID {} not found" [ArgUUID order_id]) w)))
    /\ (let once := snd (delete_order_by_id order_id w) in
        let twice := delete_order_by_id order_id once in
        fst twice = Returned tt
        /\ session (snd twice) = session once
        /\ database (snd twice) = database once).
Proof.
  intros num w order_id.
  assert (Hmiss : forall v : World num,
            ~ order_exists order_id (session v) ->
            delete_order_by_id order_id v
            = (Returned tt,
               logged (mkLog ERROR "Failed to delete order with ID {}: not found"
                             [ArgUUID order_id])
                 (logged (mkLog ERROR "Order with ID {} not found"
                                [ArgUUID order_id]) v))).
  { intros v Hno. unfold delete_order_by_id, get_order_by_id, bind, db_query.
    simpl. rewrite (@find_order_missing _ _ _ Hno). reflexivity. }
  assert (Hgone : forall (e : Order.t) (s : Store num),
            Order.id e = order_id ->
            ~ In order_id
                (map Order.id
                   (filter (fun o => negb (uuid_eqb (Order.id o) (Order.id e)))
                           (orders s)))).
  { intros e s He Hin. apply in_map_iff in Hin. destruct Hin as (o & Hid & Ho).
    apply filter_In in Ho. destruct Ho as [_ Hne].
    rewrite He, Hid in Hne. unfold uuid_eqb in Hne.
    rewrite N.eqb_refl in Hne. discriminate. }
  assert (Hpres : forall v : World num,
            order_exists order_id (session v) ->
            exists e, Order.id e = order_id /\
              delete_order_by_id order_id v
              = (Returned tt,
                 let s := session v in
                 let s' :=
                   mkStore (addresses s)
                     (filter (fun o => negb (uuid_eqb (Order.id o) (Order.id e)))
                             (orders s))
                     (pizza_types s)
                     (filter (fun p => negb (fk_eqb (Pizza.order_id p) (Order.id e)))
                             (pizzas s))
                     (beverages s)
                     (filter (fun q => negb (fk_eqb (OrderBeverageQuantity.order_id q)
                                                    (Order.id e)))
                             (order_beverage_quantities s)) in
                 mkWorld s' s'
                   (log v ++ [mkLog INFO "Order with ID {} deleted" [ArgUUID order_id]]))).
  { intros v Hex. destruct (@find_order_present _ _ _ Hex) as (e & F & He).
    exists e. split; [exact He|].
    unfold delete_order_by_id, get_order_by_id, bind, db_query. simpl.
    rewrite F. reflexivity. }
  split; [|split].
  - intros Hex. destruct (Hpres w Hex) as (e & He & R).
    eexists. split; [exact R|]. simpl. repeat split.
    + apply Hgone. exact He.
    + intros Hin. apply filter_In in Hin. tauto.
    + intros Hin. apply filter_In. split; [assumption|].
      apply negb_true_iff. apply N.eqb_neq. congruence.
  - apply Hmiss.
  - assert (Hafter : ~ order_exists order_id
                       (session (snd (delete_order_by_id order_id w)))).
    { destruct (in_dec N.eq_dec order_id (map Order.id (orders (session w))))
        as [Hex|Hno].
      - destruct (Hpres w Hex) as (e & He & R). rewrite R. simpl.
        apply Hgone. exact He.
      - rewrite (Hmiss w Hno). exact Hno. }
    simpl. rewrite (Hmiss _ Hafter). simpl. auto.
Qed.

Lemma delete_order_by_id_idempotent_witness :
  (exists w', delete_order_by_id 2%N bistro = (Returned tt, w')
     /\ ~ order_exists 2%N (database w')
     /\ (forall o, Order.id o <> 2%N ->
           (In o (orders (database w')) <-> In o (orders (session bistro))))
     /\ session w' = database w')
  /\ delete_order_by_id 3%N bistro
     = (Returned tt,
        logged (mkLog ERROR "Failed to delete order with ID {}: not found"
                      [ArgUUID 3%N])
          (logged (mkLog ERROR "Order with ID {} not found" [ArgUUID 3%N]) bistro)).
Proof.
  split.
  - apply (proj1 (@delete_order_by_id_idempotent Q bistro 2%N)).
    unfold order_exists. simpl. auto.
  - apply (proj1 (proj2 (@delete_order_by_id_idempotent Q bistro 3%N))).
    unfold order_exists. simpl. intuition discriminate.
Defined.

(** ** Pizzas *)

Lemma fresh_uuid_above (used : list uuid) (x : uuid) :
  In x used -> (x < fresh_uuid used)%N.
Proof.
  unfold fresh_uuid. induction used as [|a l IH]; simpl; [contradiction|].
  intros [->|Hin]; [lia|]. specialize (IH Hin). lia.
Qed.

Lemma fresh_uuid_unused (used : list uuid) : ~ In (fresh_uuid used) used.
Proof.
  intros Hin. apply fresh_uuid_above in Hin. lia.
Qed.

(** Writing the row of a key no row has yet changes no row. *)
Lemma map_rewrite_unused (l : list Pizza.t) (k : uuid) (p' : Pizza.t) :
  ~ In k (map Pizza.id l) ->
  map (fun p => if uuid_eqb (Pizza.id p) k then p' else p) l = l.
Proof.
  induction l as [|a l IH]; simpl; intros Hno; [reflexivity|].
  replace (uuid_eqb (Pizza.id a) k) with false.
  - f_equal. apply IH. tauto.
  - symmetry. apply N.eqb_neq. intros E. apply Hno. now left.
Qed.

(** C3. [create_pizza] on a null pizza type inserts and commits a pizza whose
    type reference is unset, and then raises [AttributeError] at the log
    line, which reads [pizza_type.id]: it does not return the pizza. *)
Theorem create_pizza_null_type_raises :
  forall (num : Type) (w : World num),
    let pizza := Pizza.mk (fresh_uuid (map Pizza.id (pizzas (session w)))) None None in
    let s' := with_pizzas (session w) (pizzas (session w) ++ [pizza]) in
    create_pizza None w = (Raised AttributeError, mkWorld s' s' (log w)).
Proof.
  intros num w. reflexivity.
Qed.

(** C8. For every order and pizza type, [add_pizza_to_order] returns a pizza
    whose type reference is the id of the given pizza type, and the order's
    pizza count is one more than before; the change is committed. *)
Theorem add_pizza_to_order_count :
  forall (num : Type) (w : World num) (order : Order.t)
         (pizza_type : PizzaType.t num),
  exists (pizza : Pizza.t) (w' : World num),
    add_pizza_to_order order (Some pizza_type) w = (Returned pizza, w')
    /\ Pizza.pizza_type_id pizza = Some (PizzaType.id pizza_type)
    /\ Pizza.order_id pizza = Some (Order.id order)
    /\ pizza_count order (session w') = S (pizza_count order (session w))
    /\ database w' = session w'.
Proof.
  intros num w order pizza_type.
  pose (k := fresh_uuid (map Pizza.id (pizzas (session w)))).
  exists (Pizza.mk k (Some (PizzaType.id pizza_type)) (Some (Order.id order))).
  eexists. split; [unfold add_pizza_to_order, create_pizza; py_run; reflexivity|].
  simpl. repeat split.
  unfold pizza_count, pizza_rows_of. simpl.
  rewrite map_app. simpl. fold k.
  rewrite map_rewrite_unused by apply fresh_uuid_unused.
  unfold uuid_eqb at 1. rewrite N.eqb_refl.
  rewrite filter_app, length_app. simpl.
  unfold uuid_eqb. rewrite N.eqb_refl. simpl. lia.
Qed.

Lemma pizza_of_order_find (num : Type) (s : Store num) (order : Order.t)
    (pizza_id : uuid) :
  pizza_of_order order pizza_id s <->
  exists e, find (fun p => fk_eqb (Pizza.order_id p) (Order.id order)
                           && uuid_eqb (Pizza.id p) pizza_id) (pizzas s) = Some e.
Proof.
  split.
  - intros (p & Hin & Hid & Hord).
    destruct (find _ (pizzas s)) as [e|] eqn:F; [now exists e|].
    exfalso. apply (find_none _ _ F) in Hin.
    rewrite Hord, Hid in Hin. simpl in Hin. unfold uuid_eqb in Hin.
    rewrite !N.eqb_refl in Hin. discriminate.
  - intros (e & F). apply find_some in F. destruct F as [Hin Hk].
    apply andb_true_iff in Hk. destruct Hk as [Hord Hid].
    exists e. split; [assumption|]. split; [now apply N.eqb_eq|].
    destruct (Pizza.order_id e) as [u|]; simpl in Hord; [|discriminate].
    apply N.eqb_eq in Hord. now subst.
Qed.

(** C5. [delete_pizza_from_order] returns true exactly when a pizza with the
    id belongs to the given order, and then the pizza is deleted and the
    deletion committed; when the pizza belongs to another order or does not
    exist it returns false and no table changes. *)
Theorem delete_pizza_from_order_own :
  forall (num : Type) (w : World num) (order : Order.t) (pizza_id : uuid),
  exists (b : bool) (w' : World num),
    delete_pizza_from_order order pizza_id w = (Returned b, w')
    /\ (b = true <-> pizza_of_order order pizza_id (session w))
    /\ (b = true ->
        (forall p, In p (pizzas (database w')) <->
                   In p (pizzas (session w)) /\ Pizza.id p <> pizza_id)
        /\ session w' = database w')
    /\ (b = false -> session w' = session w /\ database w' = database w).
Proof.
  intros num w order pizza_id.
  assert (Hfind := pizza_of_order_find (session w) order pizza_id).
  unfold delete_pizza_from_order. py_run.
  destruct (find _ (pizzas (session w))) as [e|] eqn:F.
  - do 2 eexists. split; [reflexivity|]. simpl.
    apply find_some in F. destruct F as [_ Hk].
    apply andb_true_iff in Hk. destruct Hk as [_ Hid]. apply N.eqb_eq in Hid.
    split; [|split]; [| |discriminate].
    + split; [intros _; apply Hfind; eauto|reflexivity].
    + intros _. split; [|reflexivity].
      intros p. rewrite filter_In, negb_true_iff, Hid.
      unfold uuid_eqb. rewrite N.eqb_neq. reflexivity.
  - do 2 eexists. split; [reflexivity|]. simpl.
    split; [|split]; [|discriminate|auto].
    split; [discriminate|].
    intros Hp. apply Hfind in Hp. destruct Hp as (e & He). discriminate.
Qed.

Lemma delete_pizza_from_order_own_witness :
  delete_pizza_from_order (Order.mk 2%N 11%N (Some 2%N) (Some (OtherStatus 1)))
                          1%N bistro
  = (Returned false,
     logged (mkLog ERROR
               "Failed to delete pizza with ID {} from order ID {}: not found"
               [ArgUUID 1%N; ArgUUID 2%N]) bistro)
  /\ fst (delete_pizza_from_order
            (Order.mk 1%N 10%N (Some 1%N) (Some TRANSMITTED)) 1%N bistro)
     = Returned true.
Proof.
  split; [reflexivity|].
  destruct (@delete_pizza_from_order_own Q bistro
              (Order.mk 1%N 10%N (Some 1%N) (Some TRANSMITTED)) 1%N)
    as (b & w' & R & Hb & _).
  rewrite R. simpl. f_equal. apply Hb.
  exists (Pizza.mk 1%N (Some 1%N) (Some 1%N)). simpl. auto.
Defined.

(** ** Beverage quantities *)

Section UpdateFirst.
Variable A : Type.
Variable p : A -> bool.
Variable f : A -> A.
Hypothesis keeps_key : forall x, p x = true -> p (f x) = true.

Lemma find_update_first (l : list A) :
  find p (update_first p f l) = option_map f (find p l).
Proof.
  induction l as [|x l IH]; simpl; [reflexivity|].
  destruct (p x) eqn:E; simpl.
  - now rewrite (keeps_key E).
  - now rewrite E.
Qed.

Lemma others_update_first (l : list A) :
  filter (fun x => negb (p x)) (update_first p f l)
  = filter (fun x => negb (p x)) l.
Proof.
  induction l as [|x l IH]; simpl; [reflexivity|].
  destruct (p x) eqn:E; simpl.
  - rewrite (keeps_key E). reflexivity.
  - rewrite E. simpl. now rewrite IH.
Qed.

Lemma length_update_first (l : list A) :
  List.length (update_first p f l) = List.length l.
Proof.
  induction l as [|x l IH]; simpl; [reflexivity|].
  destruct (p x); simpl; auto.
Qed.

End UpdateFirst.

Lemma obq_key_true (order_id beverage_id : uuid) (q : OrderBeverageQuantity.t) :
  obq_key order_id beverage_id q = true <->
  OrderBeverageQuantity.order_id q = Some order_id
  /\ OrderBeverageQuantity.beverage_id q = beverage_id.
Proof.
  unfold obq_key, fk_eqb, uuid_eqb.
  destruct (OrderBeverageQuantity.order_id q) as [u|]; simpl.
  - rewrite andb_true_iff, !N.eqb_eq. intuition congruence.
  - intuition discriminate.
Qed.

Lemma beverage_quantity_find (num : Type) (s : Store num)
    (order_id beverage_id : uuid) :
  beverage_quantity_exists order_id beverage_id s <->
  exists e, find (obq_key order_id beverage_id) (order_beverage_quantities s)
            = Some e.
Proof.
  split.
  - intros (q & Hin & Ho & Hb).
    destruct (find _ (order_beverage_quantities s)) as [e|] eqn:F; [now exists e|].
    exfalso. apply (find_none _ _ F) in Hin.
    rewrite (proj2 (obq_key_true order_id beverage_id q) (conj Ho Hb)) in Hin.
    discriminate.
  - intros (e & F). apply find_some in F. destruct F as [Hin Hk].
    apply obq_key_true in Hk. exists e. tauto.
Qed.

(** C4. For a pair (order, beverage) without a beverage-quantity row,
    [update_beverage_quantity_of_order] returns null and no table changes.
    For a pair with a row it writes the new quantity to the row it found,
    leaves the rows of other pairs as they were, commits, and returns the
    updated row. *)
Theorem update_beverage_quantity_of_order_found :
  forall (num : Type) (w : World num) (order_id beverage_id : uuid)
         (new_quantity : Z),
    (~ beverage_quantity_exists order_id beverage_id (session w) ->
     update_beverage_quantity_of_order order_id beverage_id new_quantity w
     = (Returned None,
        logged (mkLog ERROR
                  "Beverage quantity with beverage ID {} and order ID {} not found"
                  [ArgUUID beverage_id; ArgUUID order_id]) w))
    /\ (beverage_quantity_exists order_id beverage_id (session w) ->
        exists (e : OrderBeverageQuantity.t) (w' : World num),
          update_beverage_quantity_of_order order_id beverage_id new_quantity w
          = (Returned (Some e), w')
          /\ OrderBeverageQuantity.order_id e = Some order_id
          /\ OrderBeverageQuantity.beverage_id e = beverage_id
          /\ OrderBeverageQuantity.quantity e = new_quantity
          /\ find (obq_key order_id beverage_id)
                  (order_beverage_quantities (database w')) = Some e
          /\ filter (fun q => negb (obq_key order_id beverage_id q))
                    (order_beverage_quantities (database w'))
             = filter (fun q => negb (obq_key order_id beverage_id q))
                      (order_beverage_quantities (session w))
          /\ List.length (order_beverage_quantities (database w'))
             = List.length (order_beverage_quantities (session w))
          /\ session w' = database w').
Proof.
  intros num w order_id beverage_id new_quantity.
  assert (Hfind := beverage_quantity_find (session w) order_id beverage_id).
  pose (set := fun q => OrderBeverageQuantity.mk
                          (OrderBeverageQuantity.order_id q)
                          (OrderBeverageQuantity.beverage_id q) new_quantity).
  assert (Hkeep : forall q, obq_key order_id beverage_id q = true ->
                            obq_key order_id beverage_id (set q) = true).
  { intros q Hq. exact Hq. }
  unfold update_beverage_quantity_of_order. py_run. fold set.
  destruct (find _ (order_beverage_quantities (session w))) as [e|] eqn:F.
  - split.
    + intros Hno. exfalso. apply Hno. apply Hfind. eauto.
    + intros _. exists (set e). eexists. split; [reflexivity|]. simpl.
      destruct (find_some _ _ F) as [_ Hk]. apply obq_key_true in Hk.
      destruct Hk as [Ho Hb].
      repeat split; try assumption.
      * rewrite (@find_update_first _ _ _ Hkeep), F. reflexivity.
      * apply (@others_update_first _ _ _ Hkeep).
      * apply length_update_first.
  - split.
    + intros _. reflexivity.
    + intros Hex. apply Hfind in Hex. destruct Hex as (e & He). discriminate.
Qed.

Lemma update_beverage_quantity_of_order_found_witness :
  update_beverage_quantity_of_order 2%N 2%N 5 bistro
  = (Returned None,
     logged (mkLog ERROR
               "Beverage quantity with beverage ID {} and order ID {} not found"
               [ArgUUID 2%N; ArgUUID 2%N]) bistro)
  /\ exists w',
       update_beverage_quantity_of_order 1%N 2%N 5 bistro
       = (Returned (Some (OrderBeverageQuantity.mk (Some 1%N) 2%N 5)), w').
Proof.
  split.
  - apply (proj1 (@update_beverage_quantity_of_order_found Q bistro 2%N 2%N 5)).
    intros (q & Hin & Ho & Hb). simpl in Hin.
    repeat (destruct Hin as [<-|Hin]; [discriminate|]). contradiction.
  - destruct (proj2 (@update_beverage_quantity_of_order_found Q bistro 1%N 2%N 5))
      as (e & w' & R & Ho & Hb & Hq & _).
    + exists (OrderBeverageQuantity.mk (Some 1%N) 2%N 2). simpl. auto.
    + exists w'. rewrite R. destruct e; simpl in *. now subst.
Defined.

(** ** Further properties of the operations *)

(** Runs the session primitives, those of the other operations included. *)
Ltac py_go :=
  cbv [bind ret raise db_query db_flush db_commit db_refresh
       logging_info logging_error new_Address new_Order new_Pizza
       db_add_address db_add_order db_add_pizza
       order_pizzas_append order_beverages_append
       db_delete_order db_delete_pizza setattr_quantity getattr_id
       create_address setattr_order_status db_delete_beverage_quantity];
  simpl.

Lemma uuid_eqb_refl (u : uuid) : uuid_eqb u u = true.
Proof. apply N.eqb_refl. Qed.

Lemma uuid_eqb_neq (u v : uuid) : u <> v -> uuid_eqb u v = false.
Proof. intros Hne. now apply N.eqb_neq. Qed.

Lemma find_app_none (A : Type) (p : A -> bool) (l r : list A) :
  find p l = None -> find p (l ++ r) = find p r.
Proof.
  induction l as [|a l IH]; simpl; [reflexivity|].
  destruct (p a); [discriminate|exact IH].
Qed.

Lemma find_app_some (A : Type) (p : A -> bool) (l r : list A) (x : A) :
  find p l = Some x -> find p (l ++ r) = Some x.
Proof.
  induction l as [|a l IH]; simpl; [discriminate|].
  destruct (p a); [trivial|exact IH].
Qed.

(** The pizzas after [add_pizza_to_order]: the new row at the end. *)
Lemma add_pizza_to_order_run (num : Type) (w : World num) (order : Order.t)
    (pizza_type : PizzaType.t num) :
  let pizza := Pizza.mk (fresh_uuid (map Pizza.id (pizzas (session w))))
                        (Some (PizzaType.id pizza_type)) (Some (Order.id order)) in
  let s' := with_pizzas (session w) (pizzas (session w) ++ [pizza]) in
  add_pizza_to_order order (Some pizza_type) w
  = (Returned pizza,
     mkWorld s' s'
       (log w ++ [mkLog INFO "Pizza created with type ID {}"
                         [ArgUUID (PizzaType.id pizza_type)]]
              ++ [mkLog INFO "Pizza with ID {} added to order ID {}"
                        [ArgUUID (Pizza.id pizza); ArgUUID (Order.id order)]])).
Proof.
  unfold add_pizza_to_order, create_pizza. py_go.
  rewrite map_app. simpl.
  rewrite map_rewrite_unused by apply fresh_uuid_unused.
  rewrite uuid_eqb_refl. rewrite <- app_assoc. reflexivity.
Qed.

Lemma find_pizza_fresh (l : list Pizza.t) (q : Pizza.t -> bool) :
  find (fun p => q p && uuid_eqb (Pizza.id p) (fresh_uuid (map Pizza.id l))) l = None.
Proof.
  apply find_none_iff. intros p Hp.
  rewrite uuid_eqb_neq; [apply andb_false_r|].
  intros E. apply (fresh_uuid_unused (map Pizza.id l)).
  rewrite <- E. now apply in_map.
Qed.

(** X1. The pizza [add_pizza_to_order] returns is the one [get_pizza_by_id]
    finds under its id afterwards. *)
Theorem add_pizza_to_order_then_get :
  forall (num : Type) (w : World num) (order : Order.t)
         (pizza_type : PizzaType.t num),
  exists (pizza : Pizza.t) (w' : World num),
    add_pizza_to_order order (Some pizza_type) w = (Returned pizza, w')
    /\ fst (get_pizza_by_id (Pizza.id pizza) w') = Returned (Some pizza).
Proof.
  intros num w order pizza_type.
  do 2 eexists. split; [apply add_pizza_to_order_run|].
  unfold get_pizza_by_id. py_go.
  rewrite find_app_none.
  - simpl. rewrite uuid_eqb_refl. reflexivity.
  - apply (find_pizza_fresh (pizzas (session w)) (fun _ => true)).
Qed.

(** X2. Deleting from the order the pizza that [add_pizza_to_order] has just
    added succeeds and leaves the pizza table as it was before the two
    calls, in the session and in the database. *)
Theorem add_pizza_to_order_then_delete :
  forall (num : Type) (w : World num) (order : Order.t)
         (pizza_type : PizzaType.t num),
  exists (pizza : Pizza.t) (w' w'' : World num),
    add_pizza_to_order order (Some pizza_type) w = (Returned pizza, w')
    /\ delete_pizza_from_order order (Pizza.id pizza) w' = (Returned true, w'')
    /\ pizzas (session w'') = pizzas (session w)
    /\ pizzas (database w'') = pizzas (session w).
Proof.
  intros num w order pizza_type.
  pose (k := fresh_uuid (map Pizza.id (pizzas (session w)))).
  assert (Hold : filter (fun p => negb (uuid_eqb (Pizza.id p) k)) (pizzas (session w))
                 = pizzas (session w)).
  { apply forallb_filter_id. apply forallb_forall. intros p Hp.
    apply negb_true_iff, uuid_eqb_neq. intros Ek.
    apply (fresh_uuid_unused (map Pizza.id (pizzas (session w)))).
    fold k. rewrite <- Ek. now apply in_map. }
  do 3 eexists. split; [apply add_pizza_to_order_run|].
  unfold delete_pizza_from_order. py_go. fold k.
  rewrite find_app_none by apply find_pizza_fresh.
  simpl. rewrite !uuid_eqb_refl. simpl.
  split; [reflexivity|]. simpl.
  rewrite filter_app. simpl. rewrite uuid_eqb_refl. simpl.
  rewrite app_nil_r. split; exact Hold.
Qed.

(** X3. [get_pizza_by_id] changes no table and does not raise.  A pizza it
    returns is a row with the id asked for, and nothing is logged; it
    returns nothing exactly when no pizza has the id, and then logs an
    error. *)
Theorem get_pizza_by_id_lookup :
  forall (num : Type) (w : World num) (pizza_id : uuid),
  exists (r : option Pizza.t) (w' : World num),
    get_pizza_by_id pizza_id w = (Returned r, w')
    /\ session w' = session w /\ database w' = database w
    /\ (forall p, r = Some p ->
          In p (pizzas (session w)) /\ Pizza.id p = pizza_id /\ log w' = log w)
    /\ (r = None <-> forall p, In p (pizzas (session w)) -> Pizza.id p <> pizza_id)
    /\ (r = None ->
        log w' = log w ++ [mkLog ERROR "Pizza with ID {} not found" [ArgUUID pizza_id]]).
Proof.
  intros num w pizza_id. unfold get_pizza_by_id. py_go.
  destruct (find _ (pizzas (session w))) as [e|] eqn:F.
  - do 2 eexists. split; [reflexivity|]. simpl.
    apply find_some in F. destruct F as [Hin Hid]. apply N.eqb_eq in Hid.
    split; [reflexivity|]. split; [reflexivity|]. split; [|split].
    + intros p E. inversion E; subst. auto.
    + split; [discriminate|]. intros Hno. exfalso. exact (Hno e Hin Hid).
    + discriminate.
  - do 2 eexists. split; [reflexivity|]. simpl.
    split; [reflexivity|]. split; [reflexivity|]. split; [|split].
    + discriminate.
    + split; [|reflexivity]. intros _ p Hp E.
      apply (find_none _ _ F) in Hp. apply N.eqb_neq in Hp. contradiction.
    + reflexivity.
Qed.

(** X4. [add_pizza_to_order] with a null pizza type raises [AttributeError]
    out of [create_pizza]: a pizza without type and without order has been
    committed by then, and the order's pizza count is what it was. *)
Theorem add_pizza_to_order_null_type :
  forall (num : Type) (w : World num) (order : Order.t),
  exists w' : World num,
    add_pizza_to_order order None w = (Raised AttributeError, w')
    /\ pizzas (database w')
       = pizzas (session w)
         ++ [Pizza.mk (fresh_uuid (map Pizza.id (pizzas (session w)))) None None]
    /\ session w' = database w'
    /\ pizza_count order (database w') = pizza_count order (session w)
    /\ log w' = log w.
Proof.
  intros num w order. eexists. split; [reflexivity|]. simpl.
  repeat split. unfold pizza_count, pizza_rows_of. simpl.
  rewrite filter_app. simpl. now rewrite app_nil_r.
Qed.

Lemma filter_join_left (A B : Type) (p : A -> bool) (l : list A) (r : list B)
    (on : A -> B -> bool) :
  filter (fun ab => p (fst ab)) (join l r on) = join (filter p l) r on.
Proof.
  unfold join. induction l as [|a l IH]; simpl; [reflexivity|].
  rewrite filter_app, IH, filter_map_commute. simpl.
  destruct (p a); simpl.
  - rewrite forallb_filter_id; [reflexivity|].
    apply forallb_forall. reflexivity.
  - rewrite filter_none; [reflexivity|]. reflexivity.
Qed.

Lemma fold_left_snoc (A : Type) (l acc : list A) :
  fold_left (fun a x => a ++ [x]) l acc = acc ++ l.
Proof.
  revert acc. induction l as [|x l IH]; intros acc; simpl.
  - now rewrite app_nil_r.
  - rewrite IH, <- app_assoc. reflexivity.
Qed.

(** X5. In a store where pizza type ids are unique and every pizza of the
    order references a pizza type that exists, [get_all_pizzas_of_order]
    returns one row for each pizza of the order, in the order of the pizza
    rows: the pizza's id with the name, price, description and dough of its
    type.  It changes nothing, not even the log. *)
Theorem get_all_pizzas_of_order_rows :
  forall (num : Type) (w : World num) (order : Order.t),
    NoDup (map (@PizzaType.id num) (pizza_types (session w))) ->
    (forall p, In p (pizza_rows_of (Order.id order) (session w)) ->
       exists t, In t (pizza_types (session w))
                 /\ Pizza.pizza_type_id p = Some (PizzaType.id t)) ->
    exists rows : list (JoinedPizzaPizzaType.t num),
      get_all_pizzas_of_order order w = (Returned rows, w)
      /\ List.length rows = pizza_count order (session w)
      /\ Forall2
           (fun p r =>
              JoinedPizzaPizzaType.id r = Pizza.id p
              /\ exists t, In t (pizza_types (session w))
                   /\ Pizza.pizza_type_id p = Some (PizzaType.id t)
                   /\ JoinedPizzaPizzaType.name r = PizzaType.name t
                   /\ JoinedPizzaPizzaType.price r = PizzaType.price t
                   /\ JoinedPizzaPizzaType.description r = PizzaType.description t
                   /\ JoinedPizzaPizzaType.dough_id r = PizzaType.dough_id t)
           (pizza_rows_of (Order.id order) (session w)) rows.
Proof.
  intros num w order Hkeys Hres.
  unfold get_all_pizzas_of_order. py_go.
  rewrite fold_left_snoc. simpl.
  rewrite (filter_join_left (fun p => fk_eqb (Pizza.order_id p) (Order.id order))).
  fold (pizza_rows_of (Order.id order) (session w)).
  eexists. split; [reflexivity|].
  unfold pizza_count.
  induction (pizza_rows_of (Order.id order) (session w)) as [|p L IH].
  - split; [reflexivity|constructor].
  - destruct (Hres p (or_introl eq_refl)) as (t & Ht & Hfk).
    destruct IH as [IHlen IHall]; [intros x Hx; apply Hres; now right|].
    unfold join in *. simpl.
    rewrite (filter_ext _ (fun y => uuid_eqb (PizzaType.id t) (PizzaType.id y)))
      by (intros y; now rewrite Hfk).
    rewrite (filter_key_unique (@PizzaType.id num) _ t Hkeys Ht). simpl.
    split; [now rewrite IHlen|].
    constructor; [|exact IHall].
    split; [reflexivity|]. exists t. repeat split; assumption.
Qed.

Lemma get_all_pizzas_of_order_rows_witness :
  fst (get_all_pizzas_of_order (Order.mk 1%N 10%N (Some 1%N) (Some TRANSMITTED)) bistro)
  = Returned [JoinedPizzaPizzaType.mk 1%N "Margherita" (8#1)%Q "" 1%N;
              JoinedPizzaPizzaType.mk 2%N "Salami" (10#1)%Q "" 1%N;
              JoinedPizzaPizzaType.mk 3%N "Margherita" (8#1)%Q "" 1%N]
  /\ exists rows,
       get_all_pizzas_of_order (Order.mk 1%N 10%N (Some 1%N) (Some TRANSMITTED)) bistro
       = (Returned rows, bistro)
       /\ List.length rows = 3%nat.
Proof.
  split; [reflexivity|].
  destruct (@get_all_pizzas_of_order_rows Q bistro
              (Order.mk 1%N 10%N (Some 1%N) (Some TRANSMITTED)))
    as (rows & R & Hlen & _).
  - nodup_keys.
  - intros x Hx; simpl in Hx;
      repeat (destruct Hx as [<-|Hx];
              [solve [ eexists; split; [apply in_eq|reflexivity]
                     | eexists; split; [apply in_cons, in_eq|reflexivity] ]|]);
      contradiction.
  - exists rows. split; [exact R|exact Hlen].
Defined.

(** Looking up an id after the rows of that id were written. *)
Lemma find_order_rewritten (l : list Order.t) (k : uuid) (o' : Order.t) :
  In k (map Order.id l) -> Order.id o' = k ->
  find (fun o => uuid_eqb (Order.id o) k)
       (map (fun o => if uuid_eqb (Order.id o) k then o' else o) l)
  = Some o'.
Proof.
  intros Hin Hid. induction l as [|a l IH]; simpl in *; [contradiction|].
  destruct (uuid_eqb (Order.id a) k) eqn:E.
  - now rewrite Hid, uuid_eqb_refl.
  - rewrite E. apply IH. destruct Hin as [Ha|Hin]; [|exact Hin].
    rewrite Ha, uuid_eqb_refl in E. discriminate.
Qed.

Lemma map_id_rewritten (l : list Order.t) (k : uuid) (o' : Order.t) :
  Order.id o' = k ->
  map Order.id (map (fun o => if uuid_eqb (Order.id o) k then o' else o) l)
  = map Order.id l.
Proof.
  intros Hid. induction l as [|a l IH]; simpl; [reflexivity|].
  rewrite IH. f_equal.
  destruct (uuid_eqb (Order.id a) k) eqn:E; [|reflexivity].
  apply N.eqb_eq in E. congruence.
Qed.

(** X6. For an order loaded from the session, [update_order_status] returns
    the order with the new status and nothing else changed, commits, and
    [get_order_by_id] then finds that order under its id; no order id is
    added or lost, and the orders of other ids stay as they were.  Any
    status may follow any other. *)
Theorem update_order_status_lookup :
  forall (num : Type) (w : World num) (order : Order.t) (status : OrderStatus),
    In order (orders (session w)) ->
    exists (order' : Order.t) (w' : World num),
      update_order_status order status w = (Returned order', w')
      /\ order' = Order.mk (Order.id order) (Order.user_id order)
                           (Order.address_id order) (Some status)
      /\ fst (get_order_by_id (Order.id order) w') = Returned (Some order')
      /\ map Order.id (orders (database w')) = map Order.id (orders (session w))
      /\ (forall o, Order.id o <> Order.id order ->
            (In o (orders (database w')) <-> In o (orders (session w))))
      /\ session w' = database w'.
Proof.
  intros num w order status Hin.
  do 2 eexists. split; [unfold update_order_status; py_go; reflexivity|].
  split; [reflexivity|]. simpl.
  split; [|split; [|split]].
  - unfold get_order_by_id. py_go.
    rewrite find_order_rewritten; [reflexivity| |reflexivity].
    now apply in_map.
  - now apply map_id_rewritten.
  - intros o Hne. rewrite in_map_iff. split.
    + intros (x & Hx & Hxin).
      destruct (uuid_eqb (Order.id x) (Order.id order)) eqn:E.
      * subst o. simpl in Hne. congruence.
      * now subst.
    + intros Ho. exists o. split; [|exact Ho].
      now rewrite uuid_eqb_neq.
  - reflexivity.
Qed.

Lemma update_order_status_lookup_witness :
  exists w',
    update_order_status (Order.mk 1%N 10%N (Some 1%N) (Some TRANSMITTED))
                        (OtherStatus 2) bistro
    = (Returned (Order.mk 1%N 10%N (Some 1%N) (Some (OtherStatus 2))), w')
    /\ fst (get_order_by_id 1%N w')
       = Returned (Some (Order.mk 1%N 10%N (Some 1%N) (Some (OtherStatus 2)))).
Proof.
  destruct (@update_order_status_lookup Q bistro
              (Order.mk 1%N 10%N (Some 1%N) (Some TRANSMITTED)) (OtherStatus 2))
    as (o' & w' & R & E & G & _).
  - simpl. auto.
  - exists w'. subst o'. split; [exact R|exact G].
Defined.

(** X7. The order [create_order] returns is the one [get_order_by_id] finds
    under its id afterwards; [get_all_orders] without a status then lists
    the orders there were followed by the new one, and with the status
    TRANSMITTED it lists the new order. *)
Theorem create_order_then_get :
  forall (num : Type) (w : World num) (schema : OrderCreateSchema.t),
  exists (order : Order.t) (w' : World num),
    create_order schema w = (Returned order, w')
    /\ fst (get_order_by_id (Order.id order) w') = Returned (Some order)
    /\ fst (get_all_orders None w') = Returned (orders (session w) ++ [order])
    /\ exists l, fst (get_all_orders (Some TRANSMITTED) w') = Returned l
                 /\ In order l.
Proof.
  intros num w schema.
  do 2 eexists. split; [unfold create_order; py_go; reflexivity|].
  split; [|split].
  - unfold get_order_by_id. py_go.
    rewrite find_app_none.
    + simpl. rewrite uuid_eqb_refl. reflexivity.
    + apply find_none_iff. intros o Ho. apply uuid_eqb_neq. intros E.
      apply (fresh_uuid_unused (map Order.id (orders (session w)))).
      rewrite <- E. now apply in_map.
  - reflexivity.
  - eexists. split; [reflexivity|]. simpl.
    apply filter_In. split; [|reflexivity].
    apply in_or_app. right. now left.
Qed.

Lemma order_gone_after_delete (num : Type) (w : World num) (order_id : uuid) :
  ~ order_exists order_id (session (snd (delete_order_by_id order_id w))).
Proof.
  unfold delete_order_by_id, get_order_by_id. py_go.
  destruct (find _ (orders (session w))) as [e|] eqn:F; simpl.
  - apply find_some in F. destruct F as [_ He]. apply N.eqb_eq in He.
    unfold order_exists. simpl. intros Hin.
    apply in_map_iff in Hin. destruct Hin as (o & Hid & Ho).
    apply filter_In in Ho. destruct Ho as [_ Hne].
    rewrite He, Hid, uuid_eqb_refl in Hne. discriminate.
  - unfold order_exists. intros Hin.
    apply in_map_iff in Hin. destruct Hin as (o & Hid & Ho).
    apply (find_none _ _ F) in Ho. rewrite Hid, uuid_eqb_refl in Ho. discriminate.
Qed.

(** X8. After [delete_order_by_id], whatever the store held, the id is that
    of no order: [get_order_by_id] returns nothing for it and
    [get_price_of_order] returns 0. *)
Theorem delete_order_by_id_then_nothing :
  forall (num : Type) (N : Number num) (w : World num) (order_id : uuid),
    let w' := snd (delete_order_by_id order_id w) in
    fst (delete_order_by_id order_id w) = Returned tt
    /\ fst (get_order_by_id order_id w') = Returned None
    /\ fst (get_price_of_order order_id w') = Returned (of_int 0).
Proof.
  intros num N w order_id w'.
  assert (Hgone : ~ order_exists order_id (session w'))
    by apply order_gone_after_delete.
  split; [|split].
  - unfold delete_order_by_id, get_order_by_id. py_go.
    destruct (find _ (orders (session w))); reflexivity.
  - unfold get_order_by_id. py_go.
    rewrite (@find_order_missing _ _ _ Hgone). reflexivity.
  - rewrite get_price_of_order_rows. simpl.
    rewrite beverage_price_rows_query, pizza_price_rows_query.
    rewrite !order_query_no_order by exact Hgone. reflexivity.
Qed.

(** ** Further properties of the beverage quantities *)

(** The test of [get_beverage_quantity_by_id] is the composite key test. *)
Lemma lookup_key_obq_key (order_id beverage_id : uuid) (q : OrderBeverageQuantity.t) :
  uuid_eqb (OrderBeverageQuantity.beverage_id q) beverage_id
  && fk_eqb (OrderBeverageQuantity.order_id q) order_id
  = obq_key order_id beverage_id q.
Proof.
  unfold obq_key, uuid_eqb. rewrite andb_comm. f_equal. apply N.eqb_sym.
Qed.

Lemma find_same (A : Type) (p q : A -> bool) (l : list A) :
  (forall x, p x = q x) -> find p l = find q l.
Proof.
  intros E. induction l as [|a l IH]; simpl; [reflexivity|].
  rewrite E, IH. reflexivity.
Qed.

Lemma get_beverage_quantity_by_id_run (num : Type) (w : World num)
    (order_id beverage_id : uuid) :
  fst (get_beverage_quantity_by_id order_id beverage_id w)
  = Returned (find (obq_key order_id beverage_id)
                   (order_beverage_quantities (session w))).
Proof.
  unfold get_beverage_quantity_by_id. py_go.
  rewrite (find_same _ (obq_key order_id beverage_id))
    by (intros q; apply lookup_key_obq_key).
  destruct (find _ (order_beverage_quantities (session w))); reflexivity.
Qed.

Lemma create_beverage_quantity_run (num : Type) (w : World num) (order : Order.t)
    (schema : OrderBeverageQuantityCreateSchema.t) :
  let e := OrderBeverageQuantity.mk (Some (Order.id order))
             (OrderBeverageQuantityCreateSchema.beverage_id schema)
             (OrderBeverageQuantityCreateSchema.quantity schema) in
  let s' := with_order_beverage_quantities (session w)
              (order_beverage_quantities (session w) ++ [e]) in
  create_beverage_quantity order schema w
  = (Returned e,
     mkWorld s' s'
       (log w ++ [mkLog INFO "Beverage quantity created for order ID {}"
                         [ArgUUID (Order.id order)]])).
Proof. reflexivity. Qed.

(** X9. [create_beverage_quantity] returns a row with the order's id and the
    schema's beverage id and quantity, commits it, and does so whether or
    not the pair already has a row: afterwards
    [get_joined_beverage_quantities_by_order] lists for the order the rows
    it listed before followed by the new one, and for every other order
    what it listed before. *)
Theorem create_beverage_quantity_listed :
  forall (num : Type) (w : World num) (order : Order.t)
         (schema : OrderBeverageQuantityCreateSchema.t),
  exists (e : OrderBeverageQuantity.t) (w' : World num),
    create_beverage_quantity order schema w = (Returned e, w')
    /\ e = OrderBeverageQuantity.mk (Some (Order.id order))
             (OrderBeverageQuantityCreateSchema.beverage_id schema)
             (OrderBeverageQuantityCreateSchema.quantity schema)
    /\ session w' = database w'
    /\ (forall before,
          fst (get_joined_beverage_quantities_by_order (Order.id order) w)
          = Returned before ->
          fst (get_joined_beverage_quantities_by_order (Order.id order) w')
          = Returned (before ++ [e]))
    /\ (forall other : uuid, other <> Order.id order ->
          fst (get_joined_beverage_quantities_by_order other w')
          = fst (get_joined_beverage_quantities_by_order other w)).
Proof.
  intros num w order schema.
  do 2 eexists. split; [apply create_beverage_quantity_run|].
  split; [reflexivity|]. split; [reflexivity|].
  unfold get_joined_beverage_quantities_by_order. py_go. split.
  - intros before E. inversion E; subst.
    rewrite filter_app. simpl. now rewrite uuid_eqb_refl.
  - intros other Hne. rewrite filter_app. simpl.
    rewrite uuid_eqb_neq by congruence. now rewrite app_nil_r.
Qed.

(** X10. After [create_beverage_quantity], [get_beverage_quantity_by_id] for
    the pair returns the new row when the pair had no row before, and the
    row it returned before when the pair had one: a row created for a pair
    that has one is not the one looked up. *)
Theorem create_beverage_quantity_then_get :
  forall (num : Type) (w : World num) (order : Order.t)
         (schema : OrderBeverageQuantityCreateSchema.t),
  exists (e : OrderBeverageQuantity.t) (w' : World num),
    create_beverage_quantity order schema w = (Returned e, w')
    /\ (~ beverage_quantity_exists (Order.id order)
            (OrderBeverageQuantityCreateSchema.beverage_id schema) (session w) ->
        fst (get_beverage_quantity_by_id (Order.id order)
               (OrderBeverageQuantityCreateSchema.beverage_id schema) w')
        = Returned (Some e))
    /\ (forall q,
          fst (get_beverage_quantity_by_id (Order.id order)
                 (OrderBeverageQuantityCreateSchema.beverage_id schema) w)
          = Returned (Some q) ->
          fst (get_beverage_quantity_by_id (Order.id order)
                 (OrderBeverageQuantityCreateSchema.beverage_id schema) w')
          = Returned (Some q)).
Proof.
  intros num w order schema.
  do 2 eexists. split; [apply create_beverage_quantity_run|].
  rewrite !get_beverage_quantity_by_id_run. simpl. split.
  - intros Hno. rewrite find_app_none.
    + simpl. unfold obq_key. simpl. now rewrite !uuid_eqb_refl.
    + destruct (find _ (order_beverage_quantities (session w))) as [q|] eqn:F;
        [|reflexivity].
      exfalso. apply Hno. apply beverage_quantity_find. eauto.
  - intros q E. inversion E as [F]. rewrite F.
    now rewrite (find_app_some _ _ _ F).
Qed.

Lemma create_beverage_quantity_then_get_witness :
  exists w',
    create_beverage_quantity (Order.mk 2%N 11%N (Some 2%N) (Some (OtherStatus 1)))
      (OrderBeverageQuantityCreateSchema.mk 2%N 4) bistro
    = (Returned (OrderBeverageQuantity.mk (Some 2%N) 2%N 4), w')
    /\ fst (get_beverage_quantity_by_id 2%N 2%N w')
       = Returned (Some (OrderBeverageQuantity.mk (Some 2%N) 2%N 4)).
Proof.
  destruct (@create_beverage_quantity_then_get Q bistro
              (Order.mk 2%N 11%N (Some 2%N) (Some (OtherStatus 1)))
              (OrderBeverageQuantityCreateSchema.mk 2%N 4))
    as (e & w' & R & Hnew & _).
  exists w'. rewrite create_beverage_quantity_run in R. inversion R; subst.
  split; [reflexivity|]. apply Hnew.
  intros (q & Hin & Ho & Hb). simpl in Hin.
  repeat (destruct Hin as [<-|Hin]; [discriminate|]). contradiction.
Defined.

Section RemoveFirst.
Variable A : Type.
Variable p : A -> bool.

Lemma length_remove_first (l : list A) (e : A) :
  find p l = Some e -> S (List.length (remove_first p l)) = List.length l.
Proof.
  induction l as [|x l IH]; simpl; [discriminate|].
  destruct (p x); [reflexivity|]. intros F. simpl. now rewrite IH.
Qed.

Lemma matching_remove_first (l : list A) (e : A) :
  find p l = Some e ->
  S (List.length (filter p (remove_first p l))) = List.length (filter p l).
Proof.
  induction l as [|x l IH]; simpl; [discriminate|].
  destruct (p x) eqn:E; [reflexivity|]. intros F. simpl. rewrite E. now apply IH.
Qed.

Lemma others_remove_first (l : list A) :
  filter (fun x => negb (p x)) (remove_first p l) = filter (fun x => negb (p x)) l.
Proof.
  induction l as [|x l IH]; simpl; [reflexivity|].
  destruct (p x) eqn:E; simpl; [reflexivity|]. rewrite E. simpl. now rewrite IH.
Qed.

Lemma remove_first_last (l : list A) (e : A) :
  find p l = None -> p e = true -> remove_first p (l ++ [e]) = l.
Proof.
  intros F He. induction l as [|x l IH]; simpl in *.
  - now rewrite He.
  - destruct (p x); [discriminate|]. now rewrite IH.
Qed.

End RemoveFirst.

(** X11. [delete_beverage_from_order] returns true exactly when the pair has
    a row.  It then deletes one row of the pair and commits: the table has
    one row fewer, the pair has one row fewer (a second row of the pair
    stays), and the rows of other pairs are as before.  When it returns
    false no table has changed. *)
Theorem delete_beverage_from_order_one_row :
  forall (num : Type) (w : World num) (order_id beverage_id : uuid),
  exists (b : bool) (w' : World num),
    delete_beverage_from_order order_id beverage_id w = (Returned b, w')
    /\ (b = true <-> beverage_quantity_exists order_id beverage_id (session w))
    /\ (b = true ->
        S (List.length (order_beverage_quantities (database w')))
        = List.length (order_beverage_quantities (session w))
        /\ S (List.length (filter (obq_key order_id beverage_id)
                                  (order_beverage_quantities (database w'))))
           = List.length (filter (obq_key order_id beverage_id)
                                 (order_beverage_quantities (session w)))
        /\ filter (fun q => negb (obq_key order_id beverage_id q))
                  (order_beverage_quantities (database w'))
           = filter (fun q => negb (obq_key order_id beverage_id q))
                    (order_beverage_quantities (session w))
        /\ session w' = database w')
    /\ (b = false -> session w' = session w /\ database w' = database w).
Proof.
  intros num w order_id beverage_id.
  assert (Hfind := beverage_quantity_find (session w) order_id beverage_id).
  unfold delete_beverage_from_order. py_go.
  destruct (find _ (order_beverage_quantities (session w))) as [e|] eqn:F.
  - do 2 eexists. split; [reflexivity|]. simpl.
    split; [|split]; [| |discriminate].
    + split; [intros _; apply Hfind; eauto|reflexivity].
    + intros _. split; [|split; [|split]].
      * exact (length_remove_first _ _ F).
      * exact (matching_remove_first _ _ F).
      * apply others_remove_first.
      * reflexivity.
  - do 2 eexists. split; [reflexivity|]. simpl.
    split; [|split]; [|discriminate|auto].
    split; [discriminate|].
    intros Hex. apply Hfind in Hex. destruct Hex as (e & He). discriminate.
Qed.

(** X12. For a pair without a row, [create_beverage_quantity] followed by
    [delete_beverage_from_order] of the pair succeeds and leaves the table
    of beverage quantities as it was, in the session and in the database. *)
Theorem create_beverage_quantity_then_delete :
  forall (num : Type) (w : World num) (order : Order.t)
         (schema : OrderBeverageQuantityCreateSchema.t),
    ~ beverage_quantity_exists (Order.id order)
        (OrderBeverageQuantityCreateSchema.beverage_id schema) (session w) ->
    exists (e : OrderBeverageQuantity.t) (w' w'' : World num),
      create_beverage_quantity order schema w = (Returned e, w')
      /\ delete_beverage_from_order (Order.id order)
           (OrderBeverageQuantityCreateSchema.beverage_id schema) w'
         = (Returned true, w'')
      /\ order_beverage_quantities (session w'')
         = order_beverage_quantities (session w)
      /\ order_beverage_quantities (database w'')
         = order_beverage_quantities (session w).
Proof.
  intros num w order schema Hno.
  assert (F : find (obq_key (Order.id order)
                      (OrderBeverageQuantityCreateSchema.beverage_id schema))
                   (order_beverage_quantities (session w)) = None).
  { destruct (find _ (order_beverage_quantities (session w))) as [q|] eqn:F;
      [|reflexivity].
    exfalso. apply Hno. apply beverage_quantity_find. eauto. }
  assert (K : obq_key (Order.id order)
                (OrderBeverageQuantityCreateSchema.beverage_id schema)
                (OrderBeverageQuantity.mk (Some (Order.id order))
                   (OrderBeverageQuantityCreateSchema.beverage_id schema)
                   (OrderBeverageQuantityCreateSchema.quantity schema)) = true).
  { unfold obq_key. simpl. now rewrite !uuid_eqb_refl. }
  do 3 eexists. split; [apply create_beverage_quantity_run|].
  unfold delete_beverage_from_order. py_go.
  rewrite (find_app_none _ _ _ F). simpl. rewrite K.
  split; [reflexivity|]. simpl.
  rewrite (remove_first_last _ _ _ F K). split; reflexivity.
Qed.

Lemma create_beverage_quantity_then_delete_witness :
  exists e w' w'',
    create_beverage_quantity (Order.mk 2%N 11%N (Some 2%N) (Some (OtherStatus 1)))
      (OrderBeverageQuantityCreateSchema.mk 2%N 4) bistro = (Returned e, w')
    /\ delete_beverage_from_order 2%N 2%N w' = (Returned true, w'')
    /\ order_beverage_quantities (session w'')
       = order_beverage_quantities bistro_store
    /\ order_beverage_quantities (database w'')
       = order_beverage_quantities bistro_store.
Proof.
  apply (@create_beverage_quantity_then_delete Q bistro
           (Order.mk 2%N 11%N (Some 2%N) (Some (OtherStatus 1)))
           (OrderBeverageQuantityCreateSchema.mk 2%N 4)).
  intros (q & Hin & Ho & Hb). simpl in Hin.
  repeat (destruct Hin as [<-|Hin]; [discriminate|]). contradiction.
Defined.

(** X13. For a pair that has a row, after
    [update_beverage_quantity_of_order] the row [get_beverage_quantity_by_id]
    returns for the pair is the row the update returned, and it carries the
    new quantity. *)
Theorem update_beverage_quantity_of_order_then_get :
  forall (num : Type) (w : World num) (order_id beverage_id : uuid)
         (new_quantity : Z),
    beverage_quantity_exists order_id beverage_id (session w) ->
    exists (e : OrderBeverageQuantity.t) (w' : World num),
      update_beverage_quantity_of_order order_id beverage_id new_quantity w
      = (Returned (Some e), w')
      /\ fst (get_beverage_quantity_by_id order_id beverage_id w')
         = Returned (Some e)
      /\ OrderBeverageQuantity.quantity e = new_quantity.
Proof.
  intros num w order_id beverage_id new_quantity Hex.
  apply beverage_quantity_find in Hex. destruct Hex as (e0 & F).
  pose (set := fun q => OrderBeverageQuantity.mk
                          (OrderBeverageQuantity.order_id q)
                          (OrderBeverageQuantity.beverage_id q) new_quantity).
  assert (Hkeep : forall q, obq_key order_id beverage_id q = true ->
                            obq_key order_id beverage_id (set q) = true)
    by (intros q Hq; exact Hq).
  exists (set e0). eexists.
  split; [unfold update_beverage_quantity_of_order; py_go; rewrite F; reflexivity|].
  split; [|reflexivity].
  rewrite get_beverage_quantity_by_id_run. simpl. fold set.
  rewrite (@find_update_first _ _ _ Hkeep), F. reflexivity.
Qed.

Lemma update_beverage_quantity_of_order_then_get_witness :
  exists e w',
    update_beverage_quantity_of_order 1%N 1%N 7 bistro = (Returned (Some e), w')
    /\ fst (get_beverage_quantity_by_id 1%N 1%N w') = Returned (Some e)
    /\ OrderBeverageQuantity.quantity e = 7%Z.
Proof.
  apply (@update_beverage_quantity_of_order_then_get Q bistro 1%N 1%N 7).
  exists (OrderBeverageQuantity.mk (Some 1%N) 1%N 3). simpl. auto.
Defined.

(** ** How the price follows the rows of an order *)

Section PriceSteps.
Context {num : Type} `{ExactNumber num}.

Lemma get_price_of_order_exact (order_id : uuid) (w : World num) :
  primary_keys (session w) -> order_exists order_id (session w) ->
  references_resolve order_id (session w) ->
  fst (get_price_of_order order_id w)
  = Returned (spec_price_of_order order_id (session w)).
Proof.
  intros Hk Hex Hres. rewrite get_price_of_order_rows. simpl.
  unfold spec_price_of_order. f_equal. apply total_of_perm.
  - now apply pizza_price_rows_perm.
  - now apply beverage_price_rows_perm.
Qed.

Lemma total_of_more_pizza (ps bs : list num) (x : num) :
  total_of (ps ++ [x]) bs = nadd (total_of ps bs) x.
Proof.
  unfold total_of. destruct ps as [|p r]; simpl.
  - apply nadd_comm.
  - rewrite fold_left_app. simpl.
    rewrite <- !nadd_assoc. f_equal. apply nadd_comm.
Qed.

Lemma total_of_more_beverage (ps bs : list num) (y : num) :
  total_of ps (bs ++ [y]) = nadd (total_of ps bs) y.
Proof.
  unfold total_of, sum_from_zero. rewrite fold_left_app. simpl.
  destruct ps as [|p r]; [reflexivity|]. apply nadd_assoc.
Qed.

Lemma price_of_pizza_type (s : Store num) (t : PizzaType.t num) (p : Pizza.t) :
  NoDup (map (@PizzaType.id num) (pizza_types s)) -> In t (pizza_types s) ->
  Pizza.pizza_type_id p = Some (PizzaType.id t) ->
  price_of_pizza s p = PizzaType.price t.
Proof.
  intros Hk Ht Hp. unfold price_of_pizza. rewrite find_filter, Hp. simpl.
  now rewrite (filter_key_unique (@PizzaType.id num) _ t Hk Ht).
Qed.

Lemma price_of_beverage_row (s : Store num) (b : Beverage.t num)
    (q : OrderBeverageQuantity.t) :
  NoDup (map (@Beverage.id num) (beverages s)) -> In b (beverages s) ->
  OrderBeverageQuantity.beverage_id q = Beverage.id b ->
  price_of_beverage s q = Beverage.price b.
Proof.
  intros Hk Hb Hq. unfold price_of_beverage. rewrite find_filter, Hq.
  now rewrite (filter_key_unique (@Beverage.id num) _ b Hk Hb).
Qed.

End PriceSteps.

(** X14. With prices that add exactly, in a store with unique primary keys
    where the order exists and its rows reference catalog rows that exist,
    [add_pizza_to_order] with a pizza type of the catalog raises what
    [get_price_of_order] returns for the order by the price of that type. *)
Theorem add_pizza_to_order_price :
  forall (num : Type) (N : Number num) (E : @ExactNumber num N)
         (w : World num) (order : Order.t) (pizza_type : PizzaType.t num),
    primary_keys (session w) ->
    order_exists (Order.id order) (session w) ->
    references_resolve (Order.id order) (session w) ->
    In pizza_type (pizza_types (session w)) ->
    exists (pizza : Pizza.t) (w' : World num) (before : num),
      add_pizza_to_order order (Some pizza_type) w = (Returned pizza, w')
      /\ fst (get_price_of_order (Order.id order) w) = Returned before
      /\ fst (get_price_of_order (Order.id order) w')
         = Returned (nadd before (PizzaType.price pizza_type)).
Proof.
  intros num N E w order t Hk Hex Hres Ht.
  pose (p := Pizza.mk (fresh_uuid (map Pizza.id (pizzas (session w))))
                      (Some (PizzaType.id t)) (Some (Order.id order))).
  pose (s' := with_pizzas (session w) (pizzas (session w) ++ [p])).
  assert (Hrows : pizza_rows_of (Order.id order) s'
                  = pizza_rows_of (Order.id order) (session w) ++ [p]).
  { unfold pizza_rows_of, s'. simpl. rewrite filter_app. simpl.
    now rewrite uuid_eqb_refl. }
  assert (Hres' : references_resolve (Order.id order) s').
  { destruct Hres as [Hb Hp]. split; [exact Hb|].
    intros x Hx. rewrite Hrows in Hx. apply in_app_or in Hx.
    destruct Hx as [Hx|[<-|[]]]; [now apply Hp|].
    exists t. split; [exact Ht|reflexivity]. }
  do 3 eexists. split; [apply add_pizza_to_order_run|].
  split; [now apply get_price_of_order_exact|].
  rewrite get_price_of_order_exact by assumption. simpl. fold p s'.
  f_equal. unfold spec_price_of_order.
  change (beverage_lines (Order.id order) s')
    with (beverage_lines (Order.id order) (session w)).
  unfold pizza_prices. rewrite Hrows, map_app. simpl.
  change (map (price_of_pizza s')) with (map (price_of_pizza (session w))).
  rewrite total_of_more_pizza. f_equal.
  destruct Hk as (_ & _ & Hkt).
  now apply price_of_pizza_type.
Qed.

Lemma add_pizza_to_order_price_witness :
  exists pizza w' before,
    add_pizza_to_order (Order.mk 1%N 10%N (Some 1%N) (Some TRANSMITTED))
      (Some (PizzaType.mk 2%N "Salami" (10#1)%Q "" 1%N)) bistro
    = (Returned pizza, w')
    /\ fst (get_price_of_order 1%N bistro) = Returned before
    /\ fst (get_price_of_order 1%N w') = Returned (Qplus before (10#1)).
Proof.
  apply (@add_pizza_to_order_price Q Number_Q ExactNumber_Q bistro
           (Order.mk 1%N 10%N (Some 1%N) (Some TRANSMITTED))
           (PizzaType.mk 2%N "Salami" (10#1)%Q "" 1%N)).
  - unfold primary_keys; repeat split; nodup_keys.
  - unfold order_exists; simpl; auto.
  - split; intros x Hx; simpl in Hx;
      repeat (destruct Hx as [<-|Hx];
              [solve [ eexists; split; [apply in_eq|reflexivity]
                     | eexists; split; [apply in_cons, in_eq|reflexivity] ]|]);
      contradiction.
  - simpl. auto.
Defined.

(** X15. With prices that add exactly, in a store with unique primary keys
    where the order exists and its rows reference catalog rows that exist,
    [create_beverage_quantity] for a beverage of the catalog raises what
    [get_price_of_order] returns for the order by the beverage's price
    times the quantity. *)
Theorem create_beverage_quantity_price :
  forall (num : Type) (N : Number num) (E : @ExactNumber num N)
         (w : World num) (order : Order.t) (beverage : Beverage.t num)
         (schema : OrderBeverageQuantityCreateSchema.t),
    primary_keys (session w) ->
    order_exists (Order.id order) (session w) ->
    references_resolve (Order.id order) (session w) ->
    In beverage (beverages (session w)) ->
    OrderBeverageQuantityCreateSchema.beverage_id schema = Beverage.id beverage ->
    exists (e : OrderBeverageQuantity.t) (w' : World num) (before : num),
      create_beverage_quantity order schema w = (Returned e, w')
      /\ fst (get_price_of_order (Order.id order) w) = Returned before
      /\ fst (get_price_of_order (Order.id order) w')
         = Returned (nadd before
                       (nmul (Beverage.price beverage)
                             (of_int (OrderBeverageQuantityCreateSchema.quantity schema)))).
Proof.
  intros num N E w order b schema Hk Hex Hres Hb Hid.
  pose (e := OrderBeverageQuantity.mk (Some (Order.id order))
               (OrderBeverageQuantityCreateSchema.beverage_id schema)
               (OrderBeverageQuantityCreateSchema.quantity schema)).
  pose (s' := with_order_beverage_quantities (session w)
                (order_beverage_quantities (session w) ++ [e])).
  assert (Hrows : beverage_rows_of (Order.id order) s'
                  = beverage_rows_of (Order.id order) (session w) ++ [e]).
  { unfold beverage_rows_of, s'. simpl. rewrite filter_app. simpl.
    now rewrite uuid_eqb_refl. }
  assert (Hres' : references_resolve (Order.id order) s').
  { destruct Hres as [Hq Hp]. split; [|exact Hp].
    intros x Hx. rewrite Hrows in Hx. apply in_app_or in Hx.
    destruct Hx as [Hx|[<-|[]]]; [now apply Hq|].
    exists b. split; [exact Hb|exact Hid]. }
  do 3 eexists. split; [apply create_beverage_quantity_run|].
  split; [now apply get_price_of_order_exact|].
  rewrite get_price_of_order_exact by assumption. simpl. fold e s'.
  f_equal. unfold spec_price_of_order.
  change (pizza_prices (Order.id order) s')
    with (pizza_prices (Order.id order) (session w)).
  unfold beverage_lines. rewrite Hrows, map_app. simpl.
  change (price_of_beverage s') with (price_of_beverage (session w)).
  rewrite total_of_more_beverage. do 2 f_equal.
  destruct Hk as (_ & Hkb & _).
  now apply price_of_beverage_row.
Qed.

Lemma create_beverage_quantity_price_witness :
  exists e w' before,
    create_beverage_quantity (Order.mk 2%N 11%N (Some 2%N) (Some (OtherStatus 1)))
      (OrderBeverageQuantityCreateSchema.mk 2%N 4) bistro
    = (Returned e, w')
    /\ fst (get_price_of_order 2%N bistro) = Returned before
    /\ fst (get_price_of_order 2%N w')
       = Returned (Qplus before (Qmult (1#1) (inject_Z 4))).
Proof.
  apply (@create_beverage_quantity_price Q Number_Q ExactNumber_Q bistro
           (Order.mk 2%N 11%N (Some 2%N) (Some (OtherStatus 1)))
           (Beverage.mk 2%N (1#1)%Q)
           (OrderBeverageQuantityCreateSchema.mk 2%N 4)).
  - unfold primary_keys; repeat split; nodup_keys.
  - unfold order_exists; simpl; auto.
  - split; intros x Hx; simpl in Hx;
      repeat (destruct Hx as [<-|Hx];
              [solve [ eexists; split; [apply in_eq|reflexivity]
                     | eexists; split; [apply in_cons, in_eq|reflexivity] ]|]);
      contradiction.
  - simpl. auto.
  - reflexivity.
Defined.
